(** * The Ollama client of Qwen3-DevAgent-Core

    A shallow embedding of [src/api/ollama_api.py] (class [OllamaAPI]) and of
    the constants of [src/config.py] it imports.

    Python values that travel over the wire are JSON values ([json]); a
    [dict] is a finite map with string keys ([gmap string json]).  The
    methods are written in a small free monad [prog] whose effects are the
    ones the Python code has: raising an exception, yielding from a
    generator, reading or writing an attribute of [self], and one HTTP
    exchange through the [requests] library.  [run] interprets a program
    against a transport and an object state, and records the requests that
    were sent and the elements that were yielded.

    What lies outside the repository is a parameter of the model: the
    server and [requests] are a function from requests to results
    ([Request -> http_result]), a response is described by what its three
    methods do ([Response]), and [json.loads] is a function from lines to
    values or to the exception it raises.  The calls of [logger] only write to the log
    and are left out, except for the [len(...)] their f-strings evaluate,
    which can raise.  A generator is modelled as driven to exhaustion: the
    elements it yields, in order, and the way it ends. *)

From Stdlib Require Import ZArith Floats Ascii.
From stdpp Require Import base option strings gmap list pretty.

Set Warnings "-register-all".
Local Open Scope string_scope.
Local Open Scope list_scope.
Local Open Scope Z_scope.

(** ** JSON values and the Python operations used on them *)

(** Python [bytes] and (UTF-8 encoded) [str]: sequences of 8-bit characters. *)
Definition bytes := string.

Inductive json : Type :=
| JNull
| JBool (b : bool)
| JInt (n : Z)
| JFloat (f : float)
| JString (s : string)
| JArray (l : list json)
| JObject (m : gmap string json).

(** The exceptions of [requests.exceptions], all subclasses of
    [RequestException]; [exc_text] is [str(e)]. *)
Inductive RequestException_class :=
| ConnectionError
| HTTPError
| Timeout
| InvalidJSONError
| ChunkedEncodingError
| OtherRequestException.

Record RequestException := {
  exc_class : RequestException_class;
  exc_text : string
}.

(** The exceptions a method can let escape, each given by its class and
    its [str(e)].  [Exception msg] is the plain [raise Exception(msg)] of
    the [except] clauses; the exception it was raised while handling,
    which Python keeps in its [__context__], is not part of the model.
    [JSONDecodeError], [UnicodeDecodeError] and [RecursionError] are what
    [json.loads] raises on a line of bytes. *)
Inductive exn :=
| Exception (msg : string)
| RequestsExc (e : RequestException)
| JSONDecodeError (msg : string)
| AttributeError (msg : string)
| TypeError (msg : string)
| UnicodeDecodeError (msg : string)
| RecursionError (msg : string).

(** [type(e)] as far as a caller's [except] clause can tell. *)
Inductive exn_type :=
| TyException
| TyRequests (c : RequestException_class)
| TyJSONDecodeError
| TyAttributeError
| TyTypeError
| TyUnicodeDecodeError
| TyRecursionError.

Definition type_of_exn (e : exn) : exn_type :=
  match e with
  | Exception _ => TyException
  | RequestsExc r => TyRequests (exc_class r)
  | JSONDecodeError _ => TyJSONDecodeError
  | AttributeError _ => TyAttributeError
  | TypeError _ => TyTypeError
  | UnicodeDecodeError _ => TyUnicodeDecodeError
  | RecursionError _ => TyRecursionError
  end.

Definition message_of_exn (e : exn) : string :=
  match e with
  | Exception msg | JSONDecodeError msg | AttributeError msg | TypeError msg
  | UnicodeDecodeError msg | RecursionError msg => msg
  | RequestsExc r => exc_text r
  end.

Inductive outcome (A : Type) :=
| Returned (a : A)
| Raised (e : exn).
Arguments Returned {A} a.
Arguments Raised {A} e.

(** Truth value of a Python object ([if x:], [bool(x)]). *)
Definition py_truthy (v : json) : bool :=
  match v with
  | JNull => false
  | JBool b => b
  | JInt n => negb (n =? 0)
  | JFloat f => negb (PrimFloat.eqb f 0%float)
  | JString s => negb (bool_decide (s = ""))
  | JArray l => negb (bool_decide (l = []))
  | JObject m => negb (bool_decide (m = ∅))
  end.

Definition bytes_truthy (b : bytes) : bool := negb (bool_decide (b = "")).

(** [if params:] for [params: Dict[str, Any] = None]. *)
Definition params_truthy (params : option (gmap string json)) : bool :=
  match params with
  | None => false
  | Some m => negb (bool_decide (m = ∅))
  end.

Definition py_type_name (v : json) : string :=
  match v with
  | JNull => "NoneType"
  | JBool _ => "bool"
  | JInt _ => "int"
  | JFloat _ => "float"
  | JString _ => "str"
  | JArray _ => "list"
  | JObject _ => "dict"
  end.

(** [d.get(key, default)]: only a [dict] has the method. *)
Definition py_get (d : json) (key : string) (dflt : json) : outcome json :=
  match d with
  | JObject m => Returned (default dflt (m !! key))
  | _ => Raised (AttributeError
                   ("'" +:+ py_type_name d +:+ "' object has no attribute 'get'"))
  end.

(** [len(v)] inside the f-string of a log message: the number is only
    logged, but the call raises on a value without a length. *)
Definition py_len (v : json) : outcome Z :=
  match v with
  | JString s => Returned (Z.of_nat (String.length s))
  | JArray l => Returned (Z.of_nat (length l))
  | JObject m => Returned (Z.of_nat (size m))
  | _ => Raised (TypeError
                   ("object of type '" +:+ py_type_name v +:+ "' has no len()"))
  end.

(** ** src/config.py *)

Module Config.
Definition OLLAMA_HOST : string := "localhost".
Definition OLLAMA_PORT : Z := 11434.
Definition OLLAMA_BASE_URL : string :=
  "http://" +:+ OLLAMA_HOST +:+ ":" +:+ pretty OLLAMA_PORT.
Definition OLLAMA_API_MODELS : string := OLLAMA_BASE_URL +:+ "/api/tags".
Definition OLLAMA_API_GENERATE : string := OLLAMA_BASE_URL +:+ "/api/generate".
Definition OLLAMA_API_CHAT : string := OLLAMA_BASE_URL +:+ "/api/chat".
Definition REQUEST_TIMEOUT : Z := 30.
Definition MAX_TOKENS : Z := 2048.
End Config.
Import Config.

(** ** The HTTP exchange ([requests]) *)

Inductive http_method := GET | POST.

(** One call of [requests.get] / [requests.post]: the URL, the [json=]
    body, the [stream=] flag and the [timeout=] bound. *)
Record Request := {
  req_method : http_method;
  req_url : string;
  req_json : option (gmap string json);
  req_stream : bool;
  req_timeout : Z
}.

(** A [requests.Response], seen through the three methods the client calls:
    what [raise_for_status()] raises (nothing on success), what [json()]
    returns or raises, and the lines [iter_lines()] delivers, possibly
    ended by a transport error when the connection breaks.  On a body
    that is not JSON, [json()] raises the [JSONDecodeError] of
    [requests.exceptions], a [RequestException] of class
    [InvalidJSONError]. *)
Record Response := {
  raise_for_status_exc : option RequestException;
  json_result : outcome json;
  iter_lines : list bytes;
  iter_lines_exc : option RequestException
}.

Inductive http_result :=
| RequestFailed (e : RequestException)
| Responded (r : Response).

(** ** The object state *)

Record OllamaAPI := {
  api_models : string;
  api_generate : string;
  api_chat : string
}.

Inductive attr := Api_models | Api_generate | Api_chat.

Definition get_attr (self : OllamaAPI) (f : attr) : string :=
  match f with
  | Api_models => api_models self
  | Api_generate => api_generate self
  | Api_chat => api_chat self
  end.

Definition set_attr (self : OllamaAPI) (f : attr) (v : string) : OllamaAPI :=
  match f with
  | Api_models =>
      {| api_models := v; api_generate := api_generate self; api_chat := api_chat self |}
  | Api_generate =>
      {| api_models := api_models self; api_generate := v; api_chat := api_chat self |}
  | Api_chat =>
      {| api_models := api_models self; api_generate := api_generate self; api_chat := v |}
  end.

(** ** Programs *)

(** [Y] is the type of the elements a generator yields ([Empty_set] for an
    ordinary method), [A] the type of the returned value. *)
Inductive prog (Y A : Type) : Type :=
| Ret (a : A)
| Raise (e : exn)
| Yield (y : Y) (k : prog Y A)
| GetAttr (f : attr) (k : string -> prog Y A)
| SetAttr (f : attr) (v : string) (k : prog Y A)
| Http (req : Request) (k : http_result -> prog Y A).
Arguments Ret {Y A} a.
Arguments Raise {Y A} e.
Arguments Yield {Y A} y k.
Arguments GetAttr {Y A} f k.
Arguments SetAttr {Y A} f v k.
Arguments Http {Y A} req k.

Fixpoint prog_bind {Y A B} (f : A -> prog Y B) (p : prog Y A) : prog Y B :=
  match p with
  | Ret a => f a
  | Raise e => Raise e
  | Yield y k => Yield y (prog_bind f k)
  | GetAttr a k => GetAttr a (fun v => prog_bind f (k v))
  | SetAttr a v k => SetAttr a v (prog_bind f k)
  | Http req k => Http req (fun res => prog_bind f (k res))
  end.

#[global] Instance prog_ret {Y} : MRet (prog Y) := fun A a => Ret a.
#[global] Instance prog_mbind {Y} : MBind (prog Y) := fun A B f p => prog_bind f p.

(** [try: p  except requests.exceptions.RequestException as e: h e].  An
    exception raised by the handler itself is not caught again. *)
Fixpoint try_except {Y A} (p : prog Y A) (h : RequestException -> prog Y A)
  : prog Y A :=
  match p with
  | Ret a => Ret a
  | Raise (RequestsExc e) => h e
  | Raise e => Raise e
  | Yield y k => Yield y (try_except k h)
  | GetAttr a k => GetAttr a (fun v => try_except (k v) h)
  | SetAttr a v k => SetAttr a v (try_except k h)
  | Http req k => Http req (fun res => try_except (k res) h)
  end.

Definition lift {Y A} (o : outcome A) : prog Y A :=
  match o with
  | Returned a => Ret a
  | Raised e => Raise e
  end.

Definition yield {Y} (y : Y) : prog Y unit := Yield y (Ret tt).
Definition getattr {Y} (f : attr) : prog Y string := GetAttr f Ret.
Definition setattr {Y} (f : attr) (v : string) : prog Y unit := SetAttr f v (Ret tt).

(** [requests.get(url, timeout=...)] and [requests.post(url, json=..., ...)]:
    a failed exchange raises the transport's exception. *)
Definition requests_call {Y} (req : Request) : prog Y Response :=
  Http req (fun res =>
    match res with
    | RequestFailed e => Raise (RequestsExc e)
    | Responded r => Ret r
    end).

Definition requests_get {Y} (url : string) (timeout : Z) : prog Y Response :=
  requests_call {| req_method := GET; req_url := url; req_json := None;
                   req_stream := false; req_timeout := timeout |}.

Definition requests_post {Y} (url : string) (body : gmap string json)
    (stream : bool) (timeout : Z) : prog Y Response :=
  requests_call {| req_method := POST; req_url := url; req_json := Some body;
                   req_stream := stream; req_timeout := timeout |}.

Definition raise_for_status {Y} (response : Response) : prog Y unit :=
  match raise_for_status_exc response with
  | Some e => Raise (RequestsExc e)
  | None => Ret tt
  end.

(** [for line in response.iter_lines(): body], where the body ends an
    iteration normally ([Continue]) or by [break]. *)
Inductive loop_ctl := Continue | Break.

Fixpoint for_in {Y} (lines : list bytes) (broken : option RequestException)
    (body : bytes -> prog Y loop_ctl) : prog Y unit :=
  match lines with
  | [] =>
      match broken with
      | Some e => Raise (RequestsExc e)
      | None => Ret tt
      end
  | line :: rest =>
      c ← body line;
      match c with
      | Break => Ret tt
      | Continue => for_in rest broken body
      end
  end.

(** [request_data.update(params)]: the keys of [params] win. *)
Definition update (request_data params : gmap string json) : gmap string json :=
  params ∪ request_data.

(** [if params: request_data.update(params)]. *)
Definition add_params (request_data : gmap string json)
    (params : option (gmap string json)) : gmap string json :=
  if params_truthy params then update request_data (default ∅ params)
  else request_data.

(** [if 'max_tokens' not in request_data: request_data['max_tokens'] = MAX_TOKENS]. *)
Definition set_default_max_tokens (request_data : gmap string json)
  : gmap string json :=
  if bool_decide (request_data !! "max_tokens" = None)
  then <["max_tokens" := JInt MAX_TOKENS]> request_data
  else request_data.

(** ** Running a program *)

Record run_result (Y A : Type) := {
  final_self : OllamaAPI;
  sent : list Request;
  produced : list Y;
  result : outcome A
}.
Arguments final_self {Y A} r.
Arguments sent {Y A} r.
Arguments produced {Y A} r.
Arguments result {Y A} r.

Fixpoint run {Y A} (transport : Request -> http_result) (self : OllamaAPI)
    (p : prog Y A) : run_result Y A :=
  match p with
  | Ret a =>
      {| final_self := self; sent := []; produced := []; result := Returned a |}
  | Raise e =>
      {| final_self := self; sent := []; produced := []; result := Raised e |}
  | Yield y k =>
      let r := run transport self k in
      {| final_self := final_self r; sent := sent r;
         produced := y :: produced r; result := result r |}
  | GetAttr f k => run transport self (k (get_attr self f))
  | SetAttr f v k => run transport (set_attr self f v) k
  | Http req k =>
      let r := run transport self (k (transport req)) in
      {| final_self := final_self r; sent := req :: sent r;
         produced := produced r; result := result r |}
  end.

(** ** class OllamaAPI *)

Definition base_url_truthy (base_url : option string) : bool :=
  match base_url with
  | None => false
  | Some s => negb (bool_decide (s = ""))
  end.

(** [OllamaAPI.__init__(self, base_url=None)]. *)
Definition __init__ (base_url : option string) : prog Empty_set unit :=
  setattr Api_models OLLAMA_API_MODELS;;
  setattr Api_generate OLLAMA_API_GENERATE;;
  setattr Api_chat OLLAMA_API_CHAT;;
  if base_url_truthy base_url then
    setattr Api_models (default "" base_url +:+ "/api/tags");;
    setattr Api_generate (default "" base_url +:+ "/api/generate");;
    setattr Api_chat (default "" base_url +:+ "/api/chat")
  else mret tt.

Definition list_models_error : string := "Не удалось получить список моделей: ".
Definition generate_error : string := "Не удалось получить ответ от модели: ".
Definition generate_stream_error : string :=
  "Не удалось получить потоковый ответ от модели: ".
Definition chat_error : string := "Не удалось получить ответ чата от модели: ".
Definition chat_stream_error : string :=
  "Не удалось получить потоковый ответ чата от модели: ".

(** [raise Exception(f"<prefix>{str(e)}")]: a new exception of class
    [Exception] whose text is the prefix followed by [str(e)]. *)
Definition reraise {Y A} (prefix : string) (e : RequestException) : prog Y A :=
  Raise (Exception (prefix +:+ exc_text e)).

(** [OllamaAPI.list_models(self)]. *)
Definition list_models : prog Empty_set json :=
  try_except
    (url ← getattr Api_models;
     response ← requests_get url REQUEST_TIMEOUT;
     raise_for_status response;;
     data ← lift (json_result response);
     models ← lift (py_get data "models" (JArray []));
     _ ← lift (py_len models);
     mret models)
    (reraise list_models_error).

(** [OllamaAPI.generate(self, model, prompt, params=None)]. *)
Definition generate (model prompt : string) (params : option (gmap string json))
  : prog Empty_set json :=
  try_except
    (let request_data : gmap string json :=
       {[ "model" := JString model; "prompt" := JString prompt ]} in
     let request_data := add_params request_data params in
     let request_data := set_default_max_tokens request_data in
     url ← getattr Api_generate;
     response ← requests_post url request_data false REQUEST_TIMEOUT;
     raise_for_status response;;
     data ← lift (json_result response);
     generated_text ← lift (py_get data "response" (JString ""));
     _ ← lift (py_len generated_text);
     mret generated_text)
    (reraise generate_error).

(** [OllamaAPI.chat(self, model, messages, params=None)]. *)
Definition chat (model : string) (messages : list json)
    (params : option (gmap string json)) : prog Empty_set json :=
  try_except
    (let request_data : gmap string json :=
       {[ "model" := JString model; "messages" := JArray messages ]} in
     let request_data := add_params request_data params in
     url ← getattr Api_chat;
     response ← requests_post url request_data false REQUEST_TIMEOUT;
     raise_for_status response;;
     data ← lift (json_result response);
     mret data)
    (reraise chat_error).

Section Streaming.

(** [json.loads(line)]: the decoded value, or the exception it raises
    ([json.JSONDecodeError] on text that is not JSON, [UnicodeDecodeError]
    on bytes that are not UTF-8, [RecursionError] on nesting that is too
    deep). *)
Variable json_loads : bytes -> json + exn.

Definition loads {Y} (line : bytes) : prog Y json :=
  match json_loads line with
  | inl v => Ret v
  | inr e => Raise e
  end.

(** The body of the [for] loop of [generate_stream]. *)
Definition generate_stream_body (line : bytes) : prog json loop_ctl :=
  if bytes_truthy line then
    line_data ← loads line;
    token ← lift (py_get line_data "response" (JString ""));
    done ← lift (py_get line_data "done" (JBool false));
    if py_truthy done then mret Break
    else yield token;; mret Continue
  else mret Continue.

(** [OllamaAPI.generate_stream(self, model, prompt, params=None)], driven
    until it is exhausted. *)
Definition generate_stream (model prompt : string)
    (params : option (gmap string json)) : prog json unit :=
  try_except
    (let request_data : gmap string json :=
       {[ "model" := JString model; "prompt" := JString prompt;
          "stream" := JBool true ]} in
     let request_data := add_params request_data params in
     let request_data := set_default_max_tokens request_data in
     url ← getattr Api_generate;
     response ← requests_post url request_data true REQUEST_TIMEOUT;
     raise_for_status response;;
     for_in (iter_lines response) (iter_lines_exc response) generate_stream_body)
    (reraise generate_stream_error).

(** The body of the [for] loop of [chat_stream]. *)
Definition chat_stream_body (line : bytes) : prog json loop_ctl :=
  if bytes_truthy line then
    line_data ← loads line;
    yield line_data;;
    done ← lift (py_get line_data "done" (JBool false));
    if py_truthy done then mret Break
    else mret Continue
  else mret Continue.

(** [OllamaAPI.chat_stream(self, model, messages, params=None)], driven
    until it is exhausted. *)
Definition chat_stream (model : string) (messages : list json)
    (params : option (gmap string json)) : prog json unit :=
  try_except
    (let request_data : gmap string json :=
       {[ "model" := JString model; "messages" := JArray messages;
          "stream" := JBool true ]} in
     let request_data := add_params request_data params in
     url ← getattr Api_chat;
     response ← requests_post url request_data true REQUEST_TIMEOUT;
     raise_for_status response;;
     for_in (iter_lines response) (iter_lines_exc response) chat_stream_body)
    (reraise chat_stream_error).


(** [lines] is NDJSON: every line is blank or decodes to an object;
    [objs] are the objects in arrival order. *)
Inductive ndjson_objects : list bytes -> list (gmap string json) -> Prop :=
| ndjson_nil : ndjson_objects [] []
| ndjson_blank lines objs :
    ndjson_objects lines objs -> ndjson_objects ("" :: lines) objs
| ndjson_object line m lines objs :
    line ≠ "" -> json_loads line = inl (JObject m) ->
    ndjson_objects lines objs -> ndjson_objects (line :: lines) (m :: objs).

End Streaming.

(** ** Results of runs *)

(** The run of [p] followed by the run [r2] of what comes after it. *)
Definition followed_by {Y A B} (r1 : run_result Y A) (r2 : run_result Y B)
  : run_result Y B :=
  {| final_self := final_self r2; sent := sent r1 ++ sent r2;
     produced := produced r1 ++ produced r2; result := result r2 |}.

(** A run that ended by raising [e], at another result type. *)
Definition raising {Y A B} (r : run_result Y A) (e : exn) : run_result Y B :=
  {| final_self := final_self r; sent := sent r; produced := produced r;
     result := Raised e |}.

(** The run [r] after the elements [ys] have been yielded. *)
Definition yielding {Y A} (ys : list Y) (r : run_result Y A) : run_result Y A :=
  {| final_self := final_self r; sent := sent r;
     produced := ys ++ produced r; result := result r |}.

(** ** Transports and observations *)

(** A server that answers every request with the response [r]. *)
Definition serve (r : Response) : Request -> http_result := fun _ => Responded r.

(** A transport on which no exchange succeeds ([requests] raises [e]). *)
Definition refuse (e : RequestException) : Request -> http_result :=
  fun _ => RequestFailed e.

(** The exchange fails with the transport error [e]: [requests.get]/[post]
    raises it, or the response has a status [raise_for_status()] rejects. *)
Definition fails_with (res : http_result) (e : RequestException) : Prop :=
  res = RequestFailed e ∨
  ∃ r, res = Responded r ∧ raise_for_status_exc r = Some e.

(** [msg] contains [text]. *)
Definition includes (msg text : string) : Prop :=
  ∃ before after, msg = before +:+ text +:+ after.

(** The options mapping of a call: [params], or nothing for [None]. *)
Definition options (params : option (gmap string json)) : gmap string json :=
  default ∅ params.

(** The [done] flag of a streamed object, as the loops test it, and the
    element [generate_stream] extracts from it. *)
Definition is_done (m : gmap string json) : bool :=
  py_truthy (default (JBool false) (m !! "done")).

Definition token_of (m : gmap string json) : json :=
  default (JString "") (m !! "response").

(** The objects up to and including the first one whose [done] is true. *)
Fixpoint through_done (objs : list (gmap string json)) : list (gmap string json) :=
  match objs with
  | [] => []
  | m :: rest => m :: (if is_done m then [] else through_done rest)
  end.

(** ** The exchange each method performs *)

(** The run of a method whose exchange failed with [e]: one request was
    sent, nothing was yielded, and the [except] clause raised. *)
Definition failed_exchange {Y A} (self : OllamaAPI) (req : Request)
    (prefix : string) (e : RequestException) : run_result Y A :=
  {| final_self := self; sent := [req]; produced := [];
     result := Raised (Exception (prefix +:+ exc_text e)) |}.

(** The run [r] of the rest of a method, after [req] was sent. *)
Definition sending {Y A} (req : Request) (r : run_result Y A) : run_result Y A :=
  {| final_self := final_self r; sent := req :: sent r;
     produced := produced r; result := result r |}.

Definition list_models_request (self : OllamaAPI) : Request :=
  {| req_method := GET; req_url := api_models self; req_json := None;
     req_stream := false; req_timeout := REQUEST_TIMEOUT |}.

Definition generate_request (self : OllamaAPI) (model prompt : string)
    (params : option (gmap string json)) : Request :=
  {| req_method := POST; req_url := api_generate self;
     req_json := Some (set_default_max_tokens (add_params
       {[ "model" := JString model; "prompt" := JString prompt ]} params));
     req_stream := false; req_timeout := REQUEST_TIMEOUT |}.

Definition generate_stream_request (self : OllamaAPI) (model prompt : string)
    (params : option (gmap string json)) : Request :=
  {| req_method := POST; req_url := api_generate self;
     req_json := Some (set_default_max_tokens (add_params
       {[ "model" := JString model; "prompt" := JString prompt;
          "stream" := JBool true ]} params));
     req_stream := true; req_timeout := REQUEST_TIMEOUT |}.

Definition chat_request (self : OllamaAPI) (model : string)
    (messages : list json) (params : option (gmap string json)) : Request :=
  {| req_method := POST; req_url := api_chat self;
     req_json := Some (add_params
       {[ "model" := JString model; "messages" := JArray messages ]} params);
     req_stream := false; req_timeout := REQUEST_TIMEOUT |}.

Definition chat_stream_request (self : OllamaAPI) (model : string)
    (messages : list json) (params : option (gmap string json)) : Request :=
  {| req_method := POST; req_url := api_chat self;
     req_json := Some (add_params
       {[ "model" := JString model; "messages" := JArray messages;
          "stream" := JBool true ]} params);
     req_stream := true; req_timeout := REQUEST_TIMEOUT |}.

(** Closes the goal of a "what does this method do" lemma: the request is
    kept abstract, then the two ways an exchange can fail are split off. *)
(** ** Calls and what a caller can observe of them *)

(** One call of a method of the client, with its arguments. *)
Inductive call :=
| ListModels
| Generate (model prompt : string) (params : option (gmap string json))
| GenerateStream (model prompt : string) (params : option (gmap string json))
| Chat (model : string) (messages : list json) (params : option (gmap string json))
| ChatStream (model : string) (messages : list json)
    (params : option (gmap string json)).

(** What is left of a run when the returned value and the yielded elements
    are forgotten: the object state, the requests sent, and the exception
    that escaped, if any. *)
Record observation := {
  obs_self : OllamaAPI;
  obs_sent : list Request;
  obs_raised : option exn
}.

Definition observe {Y A} (r : run_result Y A) : observation :=
  {| obs_self := final_self r;
     obs_sent := sent r;
     obs_raised := match result r with
                   | Returned _ => None
                   | Raised e => Some e
                   end |}.

Definition perform (json_loads : bytes -> json + exn) (c : call)
    (transport : Request -> http_result) (self : OllamaAPI) : observation :=
  match c with
  | ListModels => observe (run transport self list_models)
  | Generate model prompt params =>
      observe (run transport self (generate model prompt params))
  | GenerateStream model prompt params =>
      observe (run transport self (generate_stream json_loads model prompt params))
  | Chat model messages params =>
      observe (run transport self (chat model messages params))
  | ChatStream model messages params =>
      observe (run transport self (chat_stream json_loads model messages params))
  end.

(** The JSON bodies handed to [requests.post]. *)
Definition bodies (o : observation) : list (gmap string json) :=
  omap req_json (obs_sent o).

Definition request_of (c : call) (self : OllamaAPI) : Request :=
  match c with
  | ListModels => list_models_request self
  | Generate model prompt params => generate_request self model prompt params
  | GenerateStream model prompt params =>
      generate_stream_request self model prompt params
  | Chat model messages params => chat_request self model messages params
  | ChatStream model messages params =>
      chat_stream_request self model messages params
  end.

Definition error_prefix (c : call) : string :=
  match c with
  | ListModels => list_models_error
  | Generate _ _ _ => generate_error
  | GenerateStream _ _ _ => generate_stream_error
  | Chat _ _ _ => chat_error
  | ChatStream _ _ _ => chat_stream_error
  end.

(** The [params] argument of a call ([list_models] has none). *)
Definition params_of (c : call) : option (gmap string json) :=
  match c with
  | ListModels => None
  | Generate _ _ params | GenerateStream _ _ params
  | Chat _ _ params | ChatStream _ _ params => params
  end.

(** The base fields of the body of a call: what the method puts into
    [request_data] itself, the default [max_tokens] of [generate] and
    [generate_stream] included, apart from the options. *)
Definition base_fields (c : call) : gmap string json :=
  match c with
  | ListModels => ∅
  | Generate model prompt _ =>
      <[ "max_tokens" := JInt MAX_TOKENS ]>
        {[ "model" := JString model; "prompt" := JString prompt ]}
  | GenerateStream model prompt _ =>
      <[ "max_tokens" := JInt MAX_TOKENS ]>
        {[ "model" := JString model; "prompt" := JString prompt;
           "stream" := JBool true ]}
  | Chat model messages _ =>
      {[ "model" := JString model; "messages" := JArray messages ]}
  | ChatStream model messages _ =>
      {[ "model" := JString model; "messages" := JArray messages;
         "stream" := JBool true ]}
  end.

(** Whether the call is one of the two generators. *)
Definition streaming (c : call) : bool :=
  match c with
  | GenerateStream _ _ _ | ChatStream _ _ _ => true
  | _ => false
  end.

(** What the [except] clause of a method makes of an exception raised in
    its [try] block. *)
Definition surfaced (prefix : string) (e : exn) : exn :=
  match e with
  | RequestsExc r => Exception (prefix +:+ exc_text r)
  | _ => e
  end.

(** Programs that neither use the network nor touch [self]. *)
Inductive offline {Y A} : prog Y A -> Prop :=
| offline_ret a : offline (Ret a)
| offline_raise e : offline (Raise e)
| offline_yield y k : offline k -> offline (Yield y k).

(** ** A sample server: scenario B of the specification *)

Definition dq : string := String "034"%char EmptyString.
Definition quoted (s : string) : string := dq +:+ s +:+ dq.

(** The NDJSON lines [{"response":"Hel","done":false}],
    [{"response":"lo","done":false}] and [{"response":"","done":true}]. *)
Definition line_Hel : bytes :=
  "{" +:+ quoted "response" +:+ ":" +:+ quoted "Hel" +:+ "," +:+
  quoted "done" +:+ ":false}".
Definition line_lo : bytes :=
  "{" +:+ quoted "response" +:+ ":" +:+ quoted "lo" +:+ "," +:+
  quoted "done" +:+ ":false}".
Definition line_done : bytes :=
  "{" +:+ quoted "response" +:+ ":" +:+ quoted "" +:+ "," +:+
  quoted "done" +:+ ":true}".
(** [{"done":false}]: an object without the text field. *)
Definition line_bare : bytes := "{" +:+ quoted "done" +:+ ":false}".
(** [{"done":true}]: a closing object without the text field. *)
Definition line_done_only : bytes := "{" +:+ quoted "done" +:+ ":true}".
(** A line that is not JSON. *)
Definition line_garbage : bytes := "<html>".

Definition obj_Hel : gmap string json :=
  {[ "response" := JString "Hel"; "done" := JBool false ]}.
Definition obj_lo : gmap string json :=
  {[ "response" := JString "lo"; "done" := JBool false ]}.
Definition obj_done : gmap string json :=
  {[ "response" := JString ""; "done" := JBool true ]}.
Definition obj_bare : gmap string json := {[ "done" := JBool false ]}.

(** [json.loads] on the sample lines; every other line is rejected with
    the message Python gives for a line that starts no JSON value. *)
Definition sample_json_loads (line : bytes) : json + exn :=
  if bool_decide (line = line_Hel) then inl (JObject obj_Hel)
  else if bool_decide (line = line_lo) then inl (JObject obj_lo)
  else if bool_decide (line = line_done) then inl (JObject obj_done)
  else if bool_decide (line = line_bare) then inl (JObject obj_bare)
  else inr (JSONDecodeError "Expecting value: line 1 column 1 (char 0)").

(** A streamed answer with status 200.  [response.json()] on its whole
    body raises the [JSONDecodeError] of [requests.exceptions], a
    [RequestException] of class [InvalidJSONError]. *)
Definition sample_response (lines : list bytes) : Response :=
  {| raise_for_status_exc := None;
     json_result :=
       Raised (RequestsExc {| exc_class := InvalidJSONError;
                              exc_text := "Extra data: line 2 column 1 (char 33)" |});
     iter_lines := lines;
     iter_lines_exc := None |}.

Definition sample_self : OllamaAPI :=
  {| api_models := OLLAMA_API_MODELS; api_generate := OLLAMA_API_GENERATE;
     api_chat := OLLAMA_API_CHAT |}.

(** ** More about the client's methods *)

(** The objects before the first one whose [done] is true. *)
Fixpoint before_done (objs : list (gmap string json)) : list (gmap string json) :=
  match objs with
  | [] => []
  | m :: rest => if is_done m then [] else m :: before_done rest
  end.

(** The attribute of the client that holds the URL a call goes to. *)
Definition endpoint (c : call) : attr :=
  match c with
  | ListModels => Api_models
  | Generate _ _ _ | GenerateStream _ _ _ => Api_generate
  | Chat _ _ _ | ChatStream _ _ _ => Api_chat
  end.

(** The values [len] accepts. *)
Definition has_len (v : json) : bool :=
  match v with
  | JString _ | JArray _ | JObject _ => true
  | _ => false
  end.

(** ** src/models/model_manager.py *)

(** In [ModelManager] a [dict] lookup can fail too: the exceptions of the
    client, and [KeyError]. *)
Inductive manager_exn :=
| ClientError (e : exn)
| KeyError (key : string).

(** [str(e)]. *)
Definition message_of_manager_exn (e : manager_exn) : string :=
  match e with
  | ClientError e => message_of_exn e
  | KeyError key => "'" +:+ key +:+ "'"
  end.

(** A Python [dict] with string keys keeps its keys in the order they were
    first inserted, and [list(d.keys())] and [list(d.values())] follow that
    order: it is an association list without repeated keys.  [dict_set] is
    [d[key] = v]. *)
Fixpoint dict_set {V} (d : list (string * V)) (key : string) (v : V)
  : list (string * V) :=
  match d with
  | [] => [(key, v)]
  | (k, x) :: rest =>
      if bool_decide (k = key) then (key, v) :: rest
      else (k, x) :: dict_set rest key v
  end.

(** [d.get(key)]. *)
Fixpoint dict_lookup {V} (d : list (string * V)) (key : string) : option V :=
  match d with
  | [] => None
  | (k, x) :: rest => if bool_decide (k = key) then Some x else dict_lookup rest key
  end.

(** [del d[key]], for a key that is present. *)
Fixpoint dict_del {V} (d : list (string * V)) (key : string) : list (string * V) :=
  match d with
  | [] => []
  | (k, x) :: rest => if bool_decide (k = key) then rest else (k, x) :: dict_del rest key
  end.

Definition dict_keys {V} (d : list (string * V)) : list string := d.*1.

Definition dict_values {V} (d : list (string * V)) : list V := d.*2.

(** [key in d]. *)
Definition dict_contains {V} (d : list (string * V)) (key : string) : bool :=
  bool_decide (key ∈ dict_keys d).

(** The state of a [ModelManager]: the client it was given and the
    dictionary of installed models. *)
Record ModelManager := {
  ollama_api : OllamaAPI;
  installed_models : list (string * json)
}.

(** What [for x in v] iterates over.  A [dict] gives its keys and a [str]
    its characters (the model does not keep the order of the keys of a JSON
    object; the loop that uses this fails on the first key, whichever it
    is). *)
Definition py_iter (v : json) : outcome (list json) :=
  match v with
  | JArray l => Returned l
  | JObject m => Returned (JString <$> (map_to_list m).*1)
  | JString s => Returned ((λ c, JString (String c EmptyString)) <$> String.list_ascii_of_string s)
  | _ => Raised (TypeError ("'" +:+ py_type_name v +:+ "' object is not iterable"))
  end.

(** [v[key]] for a string [key]. *)
Definition py_getitem (v : json) (key : string) : manager_exn + json :=
  match v with
  | JObject m =>
      match m !! key with
      | Some x => inr x
      | None => inl (KeyError key)
      end
  | JArray _ =>
      inl (ClientError (TypeError "list indices must be integers or slices, not str"))
  | JString _ =>
      inl (ClientError (TypeError "string indices must be integers, not 'str'"))
  | _ =>
      inl (ClientError (TypeError
             ("'" +:+ py_type_name v +:+ "' object is not subscriptable")))
  end.

(** [s.split(':')[0]]: the part of [s] before its first colon. *)
Fixpoint before_colon (s : string) : string :=
  match s with
  | EmptyString => EmptyString
  | String c rest =>
      if bool_decide (c = ":"%char) then EmptyString
      else String c (before_colon rest)
  end.

(** [v.split(':')[0]]: only a [str] has the method. *)
Definition py_split_colon_first (v : json) : manager_exn + string :=
  match v with
  | JString s => inr (before_colon s)
  | _ => inl (ClientError (AttributeError
           ("'" +:+ py_type_name v +:+ "' object has no attribute 'split'")))
  end.

(** [model['name'].split(':')[0]]. *)
Definition model_id_of (model : json) : manager_exn + string :=
  match py_getitem model "name" with
  | inl e => inl e
  | inr name => py_split_colon_first name
  end.

(** The [for model in models] loop of [refresh_installed_models]; it stops
    at the first descriptor that raises. *)
Fixpoint refresh_loop (models : list json) (self : ModelManager)
  : ModelManager * option manager_exn :=
  match models with
  | [] => (self, None)
  | model :: rest =>
      match model_id_of model with
      | inl e => (self, Some e)
      | inr model_id =>
          refresh_loop rest
            {| ollama_api := ollama_api self;
               installed_models := dict_set (installed_models self) model_id model |}
      end
  end.

(** A call of a method of the manager: the manager afterwards, the
    requests its client sent, and the value returned. *)
Record manager_run (A : Type) := {
  manager_after : ModelManager;
  manager_sent : list Request;
  manager_returned : A
}.
Arguments manager_after {A} _.
Arguments manager_sent {A} _.
Arguments manager_returned {A} _.

(** [ModelManager.refresh_installed_models(self)]; every exception ends in
    the [except Exception] clause, which returns [False]. *)
Definition refresh_installed_models (transport : Request -> http_result)
    (self : ModelManager) : manager_run bool :=
  let r := run transport (ollama_api self) list_models in
  let self := {| ollama_api := final_self r;
                 installed_models := installed_models self |} in
  match result r with
  | Raised e =>
      {| manager_after := self; manager_sent := sent r; manager_returned := false |}
  | Returned models =>
      let self := {| ollama_api := ollama_api self; installed_models := [] |} in
      match py_iter models with
      | Raised e =>
          {| manager_after := self; manager_sent := sent r;
             manager_returned := false |}
      | Returned items =>
          let '(self, raised) := refresh_loop items self in
          {| manager_after := self; manager_sent := sent r;
             manager_returned := match raised with
                                 | None => true
                                 | Some _ => false
                                 end |}
      end
  end.

(** [ModelManager.__init__(self, ollama_api)]. *)
Definition ModelManager_init (transport : Request -> http_result)
    (api : OllamaAPI) : manager_run unit :=
  let self := {| ollama_api := api; installed_models := [] |} in
  let r := refresh_installed_models transport self in
  {| manager_after := manager_after r; manager_sent := manager_sent r;
     manager_returned := tt |}.

(** [ModelManager.get_installed_models(self)]. *)
Definition get_installed_models (transport : Request -> http_result)
    (self : ModelManager) : manager_run (list string) :=
  let r := refresh_installed_models transport self in
  {| manager_after := manager_after r; manager_sent := manager_sent r;
     manager_returned := dict_keys (installed_models (manager_after r)) |}.

(** [ModelManager.is_model_installed(self, model_id)]. *)
Definition is_model_installed (transport : Request -> http_result)
    (self : ModelManager) (model_id : string) : manager_run bool :=
  let r := refresh_installed_models transport self in
  {| manager_after := manager_after r; manager_sent := manager_sent r;
     manager_returned := dict_contains (installed_models (manager_after r)) model_id |}.

(** [try: p  except Exception as e: h e]: every exception is caught. *)
Fixpoint try_except_Exception {Y A} (p : prog Y A) (h : exn -> prog Y A)
  : prog Y A :=
  match p with
  | Ret a => Ret a
  | Raise e => h e
  | Yield y k => Yield y (try_except_Exception k h)
  | GetAttr a k => GetAttr a (fun v => try_except_Exception (k v) h)
  | SetAttr a v k => SetAttr a v (try_except_Exception k h)
  | Http req k => Http req (fun res => try_except_Exception (k res) h)
  end.

(** [for y in gen: acc = body(acc, y)], where [gen] is a generator: the
    body runs at each element the generator yields, and an exception in
    the body leaves the rest of the generator unrun. *)
Fixpoint for_yielded {Y Z S} (gen : prog Y unit) (body : S -> Y -> prog Z S)
    (acc : S) : prog Z S :=
  match gen with
  | Ret _ => Ret acc
  | Raise e => Raise e
  | Yield y k => prog_bind (fun acc => for_yielded k body acc) (body acc y)
  | GetAttr a k => GetAttr a (fun v => for_yielded (k v) body acc)
  | SetAttr a v k => SetAttr a v (for_yielded k body acc)
  | Http req k => Http req (fun res => for_yielded (k res) body acc)
  end.

(** [ModelManager.generate_response(self, model_id, prompt, max_tokens=None)],
    run on the manager's client; [None] is [JNull]. *)
Definition generate_response (json_loads : bytes -> json + exn)
    (model_id prompt : string) (max_tokens : json) : prog json unit :=
  try_except_Exception
    (let params : gmap string json := ∅ in
     let params :=
       if py_truthy max_tokens then <["max_tokens" := max_tokens]> params
       else params in
     for_yielded (generate_stream json_loads model_id prompt (Some params))
       (fun _ token => yield token) tt)
    (fun e => Raise e).

(** [SUPPORTED_MODELS] of src/config.py: each entry is a [dict] with the
    same seven keys. *)
Definition supported_model (id name description source category : string)
    (ram disk gpu install_command : string) : json :=
  JObject {[ "id" := JString id;
             "name" := JString name;
             "description" := JString description;
             "source" := JString source;
             "category" := JString category;
             "requirements" := JObject {[ "ram" := JString ram;
                                          "disk" := JString disk;
                                          "gpu" := JString gpu ]};
             "install_command" := JString install_command ]}.

Definition SUPPORTED_MODELS : list json := [
  supported_model "qwen3" "Qwen3"
    "Универсальный агент для различных задач"
    "ModelScope" "Универсальная модель"
    "8 ГБ" "4 ГБ" "Опционально (>4GB VRAM)"
    "ollama pull qwen3";
  supported_model "llama3.1" "Llama 3.1"
    "Универсальная модель для общих задач"
    "Meta" "Универсальная модель"
    "8 ГБ" "4 ГБ" "Опционально (>4GB VRAM)"
    "ollama pull llama3.1";
  supported_model "codellama" "Code Llama"
    "Специализированная модель для программирования"
    "Meta" "Программирование"
    "8 ГБ" "4 ГБ" "Опционально (>4GB VRAM)"
    "ollama pull codellama";
  supported_model "starcoder2" "StarCoder 2"
    "Модель для кодирования и генерации скриптов"
    "HuggingFace" "Программирование"
    "8 ГБ" "4 ГБ" "Опционально (>4GB VRAM)"
    "ollama pull starcoder2";
  supported_model "phi3-mini" "Phi-3 Mini"
    "Легкая модель для быстрого ответа"
    "Microsoft" "Легкая модель"
    "4 ГБ" "2 ГБ" "Опционально"
    "ollama pull phi3-mini";
  supported_model "deepseek-coder-v2" "DeepSeek Coder V2"
    "Специализированная модель для разработки кода"
    "DeepSeek" "Программирование"
    "8 ГБ" "4 ГБ" "Опционально (>4GB VRAM)"
    "ollama pull deepseek-coder:v2";
  supported_model "mistral-large" "Mistral Large"
    "Модель для логики и рассуждений"
    "Mistral AI" "Универсальная модель"
    "8 ГБ" "5 ГБ" "Рекомендуется (>6GB VRAM)"
    "ollama pull mistral-large";
  supported_model "mixtral" "Mixtral"
    "MoE модель для сложных задач"
    "Mistral AI" "Универсальная модель"
    "16 ГБ" "8 ГБ" "Рекомендуется (>8GB VRAM)"
    "ollama pull mixtral";
  supported_model "openchat" "OpenChat"
    "Быстрая и точная модель для диалогов"
    "Open Source" "Диалоговая модель"
    "8 ГБ" "4 ГБ" "Опционально (>4GB VRAM)"
    "ollama pull openchat"
].

(** [v == s] for a string [s]. *)
Definition py_eq_str (v : json) (s : string) : bool :=
  match v with
  | JString t => bool_decide (t = s)
  | _ => false
  end.

(** The loop of [get_model_info] over a list of models. *)
Fixpoint get_model_info_in (models : list json) (model_id : string)
  : manager_exn + option json :=
  match models with
  | [] => inr None
  | model :: rest =>
      match py_getitem model "id" with
      | inl e => inl e
      | inr id => if py_eq_str id model_id then inr (Some model)
                  else get_model_info_in rest model_id
      end
  end.

(** [ModelManager.get_model_info(self, model_id)]. *)
Definition get_model_info (model_id : string) : manager_exn + option json :=
  get_model_info_in SUPPORTED_MODELS model_id.

(** ** src/ui/chat_panel.py: class ModelResponseThread *)

(** The signals of the thread, with the argument they are emitted with. *)
Inductive signal :=
| token_received (token : json)
| response_received (response : string)
| response_error (message : string).

Definition emit (s : signal) : prog signal unit := Yield s (Ret tt).

(** [full_response += token], where [full_response] is a [str]. *)
Definition py_str_add (full_response : string) (token : json) : outcome string :=
  match token with
  | JString t => Returned (full_response +:+ t)
  | _ => Raised (TypeError
           ("can only concatenate str (not " +:+ quoted (py_type_name token)
            +:+ ") to str"))
  end.

(** [ModelResponseThread.run(self)], for the thread's [model_id] and
    [prompt]; the emitted signals are what the program yields. *)
Definition ModelResponseThread_run (json_loads : bytes -> json + exn)
    (model_id prompt : string) : prog signal unit :=
  try_except_Exception
    (full_response ←
       for_yielded (generate_response json_loads model_id prompt JNull)
         (fun full_response token =>
            full_response ← lift (py_str_add full_response token);
            emit (token_received token);;
            mret full_response)
         "";
     emit (response_received full_response))
    (fun e => emit (response_error (message_of_exn e))).

(** ** Notions used to state what the manager and the thread do *)

(** [model] is a descriptor as the tags endpoint lists them: an object
    whose [name] is the string [name]. *)
Definition descriptor_named (model : json) (name : string) : Prop :=
  ∃ m, model = JObject m ∧ m !! "name" = Some (JString name).

(** The dictionary obtained from [d] by the assignments [d[id] = model],
    in order. *)
Definition dictionary_of (d : list (string * json))
    (entries : list (string * json)) : list (string * json) :=
  foldl (λ d entry, dict_set d entry.1 entry.2) d entries.

Fixpoint has_colon (s : string) : bool :=
  match s with
  | EmptyString => false
  | String c rest => bool_decide (c = ":"%char) || has_colon rest
  end.

(** What holds of [installed_models] in every state the manager reaches:
    no key is repeated and no key contains a colon. *)
Definition dictionary_ok (d : list (string * json)) : Prop :=
  NoDup (dict_keys d) ∧ Forall (λ key, has_colon key = false) (dict_keys d).

(** The signals [ModelResponseThread.run] emits when the generator it
    reads yields [tokens] and then ends with [ending], starting from the
    text [full_response]. *)
Fixpoint signals_of (full_response : string) (tokens : list json)
    (ending : outcome unit) : list signal :=
  match tokens with
  | [] =>
      match ending with
      | Returned _ => [response_received full_response]
      | Raised e => [response_error (message_of_exn e)]
      end
  | token :: rest =>
      match py_str_add full_response token with
      | Returned full_response =>
          token_received token :: signals_of full_response rest ending
      | Raised e => [response_error (message_of_exn e)]
      end
  end.

Definition is_terminal (s : signal) : bool :=
  match s with
  | token_received _ => false
  | response_received _ | response_error _ => true
  end.

(** [''.join(fragments)]. *)
Fixpoint concat_strings (fragments : list string) : string :=
  match fragments with
  | [] => EmptyString
  | f :: rest => f +:+ concat_strings rest
  end.

(** ** src/models/model_data.py *)

(** The attributes of a [ModelMetadata]; [None] is [JNull], and an
    attribute holds whatever JSON value the dictionary it was filled from
    had under its key. *)
Record ModelMetadata := {
  model_id : string;
  name : json;
  description : json;
  source : json;
  category : json;
  requirements : json;
  install_command : json;
  tags : json;
  parameters : json;
  version : json;
  installed_date : json;
  last_used : json
}.

(** [ModelMetadata.update_from_dict(self, data)]: each attribute becomes
    [data.get(key, <the attribute>)]. *)
Definition update_from_dict (self : ModelMetadata) (data : gmap string json)
  : ModelMetadata :=
  {| model_id := model_id self;
     name := default (name self) (data !! "name");
     description := default (description self) (data !! "description");
     source := default (source self) (data !! "source");
     category := default (category self) (data !! "category");
     requirements := default (requirements self) (data !! "requirements");
     install_command := default (install_command self) (data !! "install_command");
     tags := default (tags self) (data !! "tags");
     parameters := default (parameters self) (data !! "parameters");
     version := default (version self) (data !! "version");
     installed_date := default (installed_date self) (data !! "installed_date");
     last_used := default (last_used self) (data !! "last_used") |}.

(** [ModelMetadata.__init__(self, model_id, data=None)]. *)
Definition ModelMetadata_init (id : string) (data : option (gmap string json))
  : ModelMetadata :=
  let self :=
    {| model_id := id;
       name := JNull; description := JNull; source := JNull; category := JNull;
       requirements := JObject ∅; install_command := JNull;
       tags := JArray []; parameters := JObject ∅; version := JNull;
       installed_date := JNull; last_used := JNull |} in
  if params_truthy data then update_from_dict self (default ∅ data) else self.

(** [ModelMetadata.to_dict(self)]. *)
Definition to_dict (self : ModelMetadata) : gmap string json :=
  {[ "model_id" := JString (model_id self);
     "name" := name self;
     "description" := description self;
     "source" := source self;
     "category" := category self;
     "requirements" := requirements self;
     "install_command" := install_command self;
     "tags" := tags self;
     "parameters" := parameters self;
     "version" := version self;
     "installed_date" := installed_date self;
     "last_used" := last_used self ]}.

(** [os.path.join(a, b)] on a POSIX system: an absolute [b] replaces [a]. *)
Definition starts_with_slash (s : string) : bool :=
  match s with
  | String c _ => bool_decide (c = "/"%char)
  | EmptyString => false
  end.

Fixpoint ends_with_slash (s : string) : bool :=
  match s with
  | EmptyString => false
  | String c EmptyString => bool_decide (c = "/"%char)
  | String _ rest => ends_with_slash rest
  end.

Definition path_join (a b : string) : string :=
  if starts_with_slash b then b
  else if bool_decide (a = "") || ends_with_slash a then a +:+ b
  else a +:+ "/" +:+ b.

(** The files the metadata code sees: the text found at each path that
    was written, and the paths at which creating a directory, opening a
    file for writing or removing a file raises [OSError].  Directories are
    not tracked, and two path texts that name one file are not
    identified: the statements below speak of the path a method computes,
    not of other spellings of it. *)
Record FileSystem := {
  files : gmap string string;
  denied : gset string
}.

(** [ModelsList.get_model(self, model_id)] and
    [ModelsList.get_all_models(self)], on the dictionary [self.models]. *)
Definition get_model (models : list (string * ModelMetadata)) (id : string)
  : option ModelMetadata :=
  dict_lookup models id.

Definition get_all_models (models : list (string * ModelMetadata))
  : list ModelMetadata :=
  dict_values models.

Section ModelData.

(** [os.path.expanduser("~")]; [json.dump(d, f, ensure_ascii=False,
    indent=2)]: the text that reaches the file, and whether the call
    returns ([true]) or raises part-way ([false]); [json.load(f)]: the
    value decoded from the text of the file, or the exception raised. *)
Variable HOME_DIR : string.
Variable json_dumps : gmap string json -> string * bool.
Variable json_loads : bytes -> json + exn.

(** src/config.py, lines 13-15. *)
Definition CONFIG_DIR : string := path_join HOME_DIR ".qwen3-devagent".
Definition MODELS_DIR : string := path_join CONFIG_DIR "models".

(** [os.path.join(MODELS_DIR, f"{model_id}_metadata.json")]. *)
Definition metadata_path (id : string) : string :=
  path_join MODELS_DIR (id +:+ "_metadata.json").

(** [ModelMetadata.save(self)]: the file system afterwards and the value
    returned; every exception ends in the [except] clause.  [open(path,
    'w')] empties the file before [json.dump] writes, so when [json.dump]
    raises, the file is left with what was written until then. *)
Definition save (self : ModelMetadata) (fs : FileSystem) : FileSystem * bool :=
  if bool_decide (MODELS_DIR ∈ denied fs) then (fs, false)
  else
    let metadata_path := metadata_path (model_id self) in
    if bool_decide (metadata_path ∈ denied fs) then (fs, false)
    else
      let written := json_dumps (to_dict self) in
      ({| files := <[metadata_path := written.1]> (files fs);
          denied := denied fs |}, written.2).

(** [ModelMetadata.load(cls, model_id)]; every exception ends in the
    [except] clause, which returns [None]. *)
Definition load (id : string) (fs : FileSystem) : option ModelMetadata :=
  let metadata_path := metadata_path id in
  match files fs !! metadata_path with
  | None => None
  | Some text =>
      match json_loads text with
      | inr _ => None
      | inl data =>
          let metadata := ModelMetadata_init id None in
          match data with
          | JObject data => Some (update_from_dict metadata data)
          | _ => None
          end
      end
  end.

(** [ModelsList.add_model(self, metadata)]: the result of [save] is not
    looked at. *)
Definition add_model (models : list (string * ModelMetadata))
    (metadata : ModelMetadata) (fs : FileSystem)
  : list (string * ModelMetadata) * FileSystem :=
  let models := dict_set models (model_id metadata) metadata in
  (models, (save metadata fs).1).

(** [ModelsList.remove_model(self, model_id)]: the value returned, or [None]
    when [os.remove] raises, which the method does not catch. *)
Definition remove_model (models : list (string * ModelMetadata))
    (id : string) (fs : FileSystem)
  : list (string * ModelMetadata) * FileSystem * option bool :=
  if dict_contains models id then
    let models := dict_del models id in
    let metadata_path := metadata_path id in
    if bool_decide (is_Some (files fs !! metadata_path)) then
      if bool_decide (metadata_path ∈ denied fs) then (models, fs, None)
      else
        (models,
         {| files := delete metadata_path (files fs); denied := denied fs |},
         Some true)
    else (models, fs, Some true)
  else (models, fs, Some false).

End ModelData.

(** ** src/utils/system_check.py: check_ollama_connection *)

(** [needle in haystack], for two [str]. *)
Fixpoint py_in (needle haystack : string) : bool :=
  String.prefix needle haystack ||
  match haystack with
  | EmptyString => false
  | String _ rest => py_in needle rest
  end.

(** The machine the check runs on: the output of [ps -ef] ([None] when
    [subprocess.run] raises), whether starting [ollama serve] with [Popen]
    raises, and what the successive calls of
    [requests.get("http://localhost:11434/api/tags", timeout=1)] give, by
    attempt number: the status code, or [None] when the call raises. *)
Record ServiceHost := {
  ps_stdout : option string;
  popen_raises : bool;
  probe : nat -> option Z
}.

(** What a run of the check did: the value returned, whether a service
    process was started, the number of HTTP requests made and the seconds
    spent in [time.sleep]. *)
Record connection_check := {
  connected : bool;
  spawned : bool;
  probes : nat;
  slept : Z
}.

(** The [for attempt in range(max_attempts)] loop. *)
Fixpoint wait_for_service (host : ServiceHost) (attempts : list nat)
  : bool * nat * Z :=
  match attempts with
  | [] => (false, 0%nat, 0)
  | attempt :: rest =>
      if bool_decide (probe host attempt = Some 200) then (true, 1%nat, 0)
      else
        let '(ok, n, seconds) := wait_for_service host rest in
        (ok, S n, 2 + seconds)
  end.

(** [check_ollama_connection()]. *)
Definition check_ollama_connection (host : ServiceHost) : connection_check :=
  match ps_stdout host with
  | None => {| connected := false; spawned := false; probes := 0; slept := 0 |}
  | Some stdout =>
      if negb (py_in "ollama serve" stdout) then
        if popen_raises host then
          {| connected := false; spawned := false; probes := 0; slept := 0 |}
        else
          let max_attempts := 5%nat in
          let '(ok, n, seconds) := wait_for_service host (seq 0 max_attempts) in
          {| connected := ok; spawned := true; probes := n; slept := seconds |}
      else {| connected := true; spawned := false; probes := 0; slept := 0 |}
  end.

(** ** Reasoning about [run] *)

Lemma run_bind {Y A B} t (p : prog Y A) (f : A -> prog Y B) self :
  run t self (p ≫= f) =
  match result (run t self p) with
  | Returned a =>
      followed_by (run t self p) (run t (final_self (run t self p)) (f a))
  | Raised e => raising (run t self p) e
  end.
Proof.
  unfold mbind, prog_mbind. revert self.
  induction p as [a|e|y k IH|a k IH|a v k IH|req k IH]; intros self; simpl.
  - by destruct (run t self (f a)).
  - done.
  - rewrite IH. by destruct (result (run t self k)).
  - apply IH.
  - apply IH.
  - rewrite IH. by destruct (result (run t self (k (t req)))).
Qed.

Lemma run_try_except {Y A} t (p : prog Y A) h self :
  run t self (try_except p h) =
  match result (run t self p) with
  | Raised (RequestsExc e) =>
      followed_by (run t self p) (run t (final_self (run t self p)) (h e))
  | _ => run t self p
  end.
Proof.
  revert self.
  induction p as [a|e|y k IH|a k IH|a v k IH|req k IH]; intros self; simpl.
  - done.
  - destruct e as [| e | | | | |]; try done.
    unfold followed_by; simpl. by destruct (run t self (h e)).
  - rewrite IH. by destruct (run t self k) as [? ? ? [|[]]].
  - apply IH.
  - apply IH.
  - rewrite IH. by destruct (run t self (k (t req))) as [? ? ? [|[]]].
Qed.


(** The [except] clauses yield nothing: what a method yields is what its
    [try] block yields. *)
Lemma produced_try_reraise {Y A} t (p : prog Y A) prefix self :
  produced (run t self (try_except p (reraise prefix))) = produced (run t self p).
Proof.
  rewrite run_try_except.
  destruct (run t self p) as [? ? ys [|[]]]; simpl; try done. apply app_nil_r.
Qed.

Section StreamFacts.

Variable json_loads : bytes -> json + exn.

Lemma bytes_truthy_nonempty line : line ≠ "" -> bytes_truthy line = true.
Proof. intros H. unfold bytes_truthy. by rewrite bool_decide_false. Qed.

Lemma generate_stream_body_blank :
  generate_stream_body json_loads "" = Ret Continue.
Proof. reflexivity. Qed.

Lemma generate_stream_body_object line m :
  line ≠ "" -> json_loads line = inl (JObject m) ->
  generate_stream_body json_loads line =
  if is_done m then Ret Break else Yield (token_of m) (Ret Continue).
Proof.
  intros Hne Hload. unfold generate_stream_body, loads.
  rewrite (bytes_truthy_nonempty _ Hne), Hload. simpl.
  unfold is_done. by destruct (py_truthy _).
Qed.

Lemma generate_stream_body_malformed line e :
  line ≠ "" -> json_loads line = inr e ->
  generate_stream_body json_loads line = Raise e.
Proof.
  intros Hne Hload. unfold generate_stream_body, loads.
  by rewrite (bytes_truthy_nonempty _ Hne), Hload.
Qed.

Lemma chat_stream_body_blank : chat_stream_body json_loads "" = Ret Continue.
Proof. reflexivity. Qed.

Lemma chat_stream_body_object line m :
  line ≠ "" -> json_loads line = inl (JObject m) ->
  chat_stream_body json_loads line =
  Yield (JObject m) (if is_done m then Ret Break else Ret Continue).
Proof.
  intros Hne Hload. unfold chat_stream_body, loads.
  rewrite (bytes_truthy_nonempty _ Hne), Hload. simpl.
  unfold is_done. by destruct (py_truthy _).
Qed.


(** A prefix of objects that are not done: [generate_stream] yields the
    token of each and reads on. *)
Lemma generate_stream_loop_prefix t self broken pre objs rest :
  ndjson_objects json_loads pre objs ->
  Forall (λ m, is_done m = false) objs ->
  run t self (for_in (pre ++ rest) broken (generate_stream_body json_loads)) =
  yielding (token_of <$> objs)
    (run t self (for_in rest broken (generate_stream_body json_loads))).
Proof.
  induction 1 as [|lines objs _ IH|line m lines objs Hne Hload _ IH];
    intros Hnd; simpl.
  - by destruct (run _ _ _).
  - apply IH, Hnd.
  - apply Forall_cons in Hnd as [Hm Hnd].
    rewrite (generate_stream_body_object _ _ Hne Hload), Hm. simpl.
    by rewrite (IH Hnd).
Qed.

(** The same for [chat_stream], which yields the objects themselves. *)
Lemma chat_stream_loop_prefix t self broken pre objs rest :
  ndjson_objects json_loads pre objs ->
  Forall (λ m, is_done m = false) objs ->
  run t self (for_in (pre ++ rest) broken (chat_stream_body json_loads)) =
  yielding (JObject <$> objs)
    (run t self (for_in rest broken (chat_stream_body json_loads))).
Proof.
  induction 1 as [|lines objs _ IH|line m lines objs Hne Hload _ IH];
    intros Hnd; simpl.
  - by destruct (run _ _ _).
  - apply IH, Hnd.
  - apply Forall_cons in Hnd as [Hm Hnd].
    rewrite (chat_stream_body_object _ _ Hne Hload), Hm. simpl.
    by rewrite (IH Hnd).
Qed.

End StreamFacts.

Ltac exchange_cases t :=
  cbv zeta;
  repeat match goal with
  | |- context [Some ?b] => lazymatch b with
      | set_default_max_tokens _ => idtac | add_params _ _ => idtac end;
      let body := fresh "body" in set (body := b)
  end;
  unfold raise_for_status; simpl;
  let r := fresh "r" in
  match goal with |- context [t ?req] => destruct (t req) as [?|r] end;
  simpl; [done|];
  destruct (raise_for_status_exc r); simpl; done.

Lemma list_models_run t self :
  run t self list_models =
  let req := list_models_request self in
  match t req with
  | RequestFailed e => failed_exchange self req list_models_error e
  | Responded r =>
      match raise_for_status_exc r with
      | Some e => failed_exchange self req list_models_error e
      | None =>
          sending req (run t self (try_except
            (data ← lift (json_result r);
             models ← lift (py_get data "models" (JArray []));
             _ ← lift (py_len models);
             mret models)
            (reraise list_models_error)))
      end
  end.
Proof. unfold list_models, list_models_request. exchange_cases t. Qed.

Lemma generate_run t self model prompt params :
  run t self (generate model prompt params) =
  let req := generate_request self model prompt params in
  match t req with
  | RequestFailed e => failed_exchange self req generate_error e
  | Responded r =>
      match raise_for_status_exc r with
      | Some e => failed_exchange self req generate_error e
      | None =>
          sending req (run t self (try_except
            (data ← lift (json_result r);
             generated_text ← lift (py_get data "response" (JString ""));
             _ ← lift (py_len generated_text);
             mret generated_text)
            (reraise generate_error)))
      end
  end.
Proof. unfold generate, generate_request. exchange_cases t. Qed.

Lemma chat_run t self model messages params :
  run t self (chat model messages params) =
  let req := chat_request self model messages params in
  match t req with
  | RequestFailed e => failed_exchange self req chat_error e
  | Responded r =>
      match raise_for_status_exc r with
      | Some e => failed_exchange self req chat_error e
      | None =>
          sending req (run t self (try_except
            (data ← lift (json_result r); mret data)
            (reraise chat_error)))
      end
  end.
Proof. unfold chat, chat_request. exchange_cases t. Qed.

Lemma generate_stream_run json_loads t self model prompt params :
  run t self (generate_stream json_loads model prompt params) =
  let req := generate_stream_request self model prompt params in
  match t req with
  | RequestFailed e => failed_exchange self req generate_stream_error e
  | Responded r =>
      match raise_for_status_exc r with
      | Some e => failed_exchange self req generate_stream_error e
      | None =>
          sending req (run t self (try_except
            (for_in (iter_lines r) (iter_lines_exc r)
               (generate_stream_body json_loads))
            (reraise generate_stream_error)))
      end
  end.
Proof. unfold generate_stream, generate_stream_request. exchange_cases t. Qed.

Lemma chat_stream_run json_loads t self model messages params :
  run t self (chat_stream json_loads model messages params) =
  let req := chat_stream_request self model messages params in
  match t req with
  | RequestFailed e => failed_exchange self req chat_stream_error e
  | Responded r =>
      match raise_for_status_exc r with
      | Some e => failed_exchange self req chat_stream_error e
      | None =>
          sending req (run t self (try_except
            (for_in (iter_lines r) (iter_lines_exc r)
               (chat_stream_body json_loads))
            (reraise chat_stream_error)))
      end
  end.
Proof. unfold chat_stream, chat_stream_request. exchange_cases t. Qed.

(** ** After the exchange *)

Lemma offline_run {Y A} t self (p : prog Y A) :
  offline p -> final_self (run t self p) = self ∧ sent (run t self p) = [].
Proof. induction 1 as [a|e|y k _ IH]; simpl; auto. Qed.

Lemma offline_bind {Y A B} (p : prog Y A) (f : A -> prog Y B) :
  offline p -> (∀ a, offline (f a)) -> offline (p ≫= f).
Proof.
  intros Hp Hf. unfold mbind, prog_mbind.
  induction Hp; simpl; [apply Hf | constructor | by constructor].
Qed.

Lemma offline_try_except {Y A} (p : prog Y A) h :
  offline p -> (∀ e, offline (h e)) -> offline (try_except p h).
Proof.
  intros Hp Hh. induction Hp as [a|e|y k _ IH]; simpl.
  - constructor.
  - destruct e; first [apply Hh | constructor].
  - by constructor.
Qed.

Lemma offline_lift {Y A} (o : outcome A) : offline (@lift Y A o).
Proof. destruct o; constructor. Qed.

Lemma offline_reraise {Y A} prefix e : offline (@reraise Y A prefix e).
Proof. constructor. Qed.

Lemma offline_for_in {Y} lines broken (body : bytes -> prog Y loop_ctl) :
  (∀ line, offline (body line)) -> offline (for_in lines broken body).
Proof.
  intros Hbody. induction lines as [|line rest IH]; simpl.
  - destruct broken; constructor.
  - apply offline_bind; [apply Hbody|]. intros []; [apply IH | constructor].
Qed.

Lemma offline_loads {Y} json_loads line : offline (@loads json_loads Y line).
Proof. unfold loads. destruct (json_loads line); constructor. Qed.

Lemma offline_generate_stream_body json_loads line :
  offline (generate_stream_body json_loads line).
Proof.
  unfold generate_stream_body. destruct (bytes_truthy line); [|constructor].
  apply offline_bind; [apply offline_loads|]. intros line_data.
  apply offline_bind; [apply offline_lift|]. intros token.
  apply offline_bind; [apply offline_lift|]. intros done.
  destruct (py_truthy done); repeat constructor.
Qed.

Lemma offline_chat_stream_body json_loads line :
  offline (chat_stream_body json_loads line).
Proof.
  unfold chat_stream_body. destruct (bytes_truthy line); [|constructor].
  apply offline_bind; [apply offline_loads|]. intros line_data.
  apply offline_bind; [repeat constructor|]. intros _.
  apply offline_bind; [apply offline_lift|]. intros done.
  destruct (py_truthy done); constructor.
Qed.

Create HintDb offline.
#[local] Hint Resolve offline_lift offline_reraise offline_for_in
  offline_generate_stream_body offline_chat_stream_body : offline.
#[local] Hint Constructors offline : offline.

Ltac offline_rest :=
  apply offline_try_except; [|auto with offline];
  repeat (apply offline_bind; [auto with offline | intros ?]);
  first [apply (offline_ret (Y:=Empty_set)) | auto with offline].

(** Every call sends exactly one request, the one [request_of] describes,
    and leaves the object as it was. *)
Lemma perform_exchange json_loads c t self :
  obs_sent (perform json_loads c t self) = [request_of c self] ∧
  obs_self (perform json_loads c t self) = self.
Proof.
  destruct c; unfold perform;
    [rewrite list_models_run | rewrite generate_run
    | rewrite generate_stream_run | rewrite chat_run | rewrite chat_stream_run];
    cbv zeta;
    (destruct (t _) as [e|r]; [done|]);
    (destruct (raise_for_status_exc r); [done|]); simpl;
    match goal with
    | |- context [run t self ?p] =>
        destruct (offline_run t self p) as [-> ->]; [offline_rest | done]
    end.
Qed.

(** A failed exchange surfaces as the plain [Exception] of the method's
    [except] clause. *)
Lemma perform_failed json_loads c t self e :
  fails_with (t (request_of c self)) e ->
  perform json_loads c t self =
  {| obs_self := self; obs_sent := [request_of c self];
     obs_raised := Some (Exception (error_prefix c +:+ exc_text e)) |}.
Proof.
  intros [Hfail|(r & Hresp & Hstatus)]; destruct c; unfold perform, request_of in *;
    [rewrite list_models_run | rewrite generate_run
    | rewrite generate_stream_run | rewrite chat_run | rewrite chat_stream_run
    | rewrite list_models_run | rewrite generate_run
    | rewrite generate_stream_run | rewrite chat_run | rewrite chat_stream_run];
    cbv zeta; first [by rewrite Hfail | by rewrite Hresp, Hstatus].
Qed.

(** ** The scenarios of the specification, run on the model *)

(** Scenario A: the tags endpoint answers [{"models":[{"name":"qwen3:latest"}]}]. *)
Example list_models_scenario :
  let r := {| raise_for_status_exc := None;
              json_result := Returned (JObject
                {[ "models" := JArray [JObject {[ "name" := JString "qwen3:latest" ]}] ]});
              iter_lines := []; iter_lines_exc := None |} in
  result (run (serve r) sample_self list_models)
  = Returned (JArray [JObject {[ "name" := JString "qwen3:latest" ]}]) ∧
  sent (run (serve r) sample_self list_models)
  = [ {| req_method := GET; req_url := "http://localhost:11434/api/tags";
         req_json := None; req_stream := false; req_timeout := 30 |} ].
Proof. vm_compute. split; reflexivity. Qed.

(** Scenario B: the three lines of a streamed generation. *)
Example generate_stream_scenario :
  let out := run (serve (sample_response [line_Hel; line_lo; line_done])) sample_self
               (generate_stream sample_json_loads "qwen3" "Hi" None) in
  produced out = [JString "Hel"; JString "lo"] ∧ result out = Returned tt.
Proof. vm_compute. split; reflexivity. Qed.

(** A body that is valid JSON but not an object has no [get]. *)
Example list_models_on_array :
  let r := {| raise_for_status_exc := None; json_result := Returned (JArray []);
              iter_lines := []; iter_lines_exc := None |} in
  result (run (serve r) sample_self list_models)
  = Raised (AttributeError "'list' object has no attribute 'get'").
Proof. vm_compute. reflexivity. Qed.

(** A stream that ends without a [done] object ends the generator normally;
    a connection that breaks surfaces through the [except] clause. *)
Example generate_stream_truncated :
  let cut := {| exc_class := ChunkedEncodingError; exc_text := "Connection broken" |} in
  let r := {| raise_for_status_exc := None; json_result := Returned JNull;
              iter_lines := [line_Hel]; iter_lines_exc := Some cut |} in
  let clean := run (serve (sample_response [line_Hel])) sample_self
                 (generate_stream sample_json_loads "qwen3" "Hi" None) in
  let broken := run (serve r) sample_self
                  (generate_stream sample_json_loads "qwen3" "Hi" None) in
  produced clean = [JString "Hel"] ∧ result clean = Returned tt ∧
  produced broken = [JString "Hel"] ∧
  result broken = Raised (Exception (generate_stream_error +:+ "Connection broken")).
Proof. vm_compute. repeat split. Qed.

(** ** The claims *)

Lemma fragments_tokens (objs : list (gmap string json)) (fs : list string) :
  Forall2 (λ m F, m !! "response" = Some (JString F) ∧
                  m !! "done" = Some (JBool false)) objs fs ->
  Forall (λ m, is_done m = false) objs ∧ token_of <$> objs = JString <$> fs.
Proof.
  induction 1 as [|m F objs fs [Hresp Hdone] _ [IHd IHt]]; [done|].
  split.
  - constructor; [|done]. unfold is_done. by rewrite Hdone.
  - rewrite !fmap_cons, IHt. unfold token_of. by rewrite Hresp.
Qed.

(** C1. When the response stream of [generate_stream] consists of lines that
    are blank or carry an object with a text fragment and [done] false,
    then a line carrying an object with [done] true, then anything at all,
    the generator yields exactly the fragments, in order, yields nothing for
    the [done] object or for what follows it, and ends normally. *)
Theorem generate_stream_yields_fragments
    json_loads self model prompt params r pre objs fs last m_done tail :
  raise_for_status_exc r = None ->
  iter_lines r = pre ++ last :: tail ->
  ndjson_objects json_loads pre objs ->
  Forall2 (λ m F, m !! "response" = Some (JString F) ∧
                  m !! "done" = Some (JBool false)) objs fs ->
  last ≠ "" ->
  json_loads last = inl (JObject m_done) ->
  m_done !! "done" = Some (JBool true) ->
  let out := run (serve r) self (generate_stream json_loads model prompt params) in
  produced out = JString <$> fs ∧ result out = Returned tt.
Proof.
  intros Hstatus Hlines Hpre Hfs Hne Hload Hdone out. subst out.
  apply fragments_tokens in Hfs as [Hnd Htok].
  rewrite generate_stream_run. unfold serve. cbv zeta. rewrite Hstatus.
  rewrite run_try_except, Hlines.
  rewrite (generate_stream_loop_prefix _ _ _ _ _ _ _ Hpre Hnd).
  simpl. rewrite (generate_stream_body_object _ _ _ Hne Hload).
  unfold is_done. rewrite Hdone. simpl.
  rewrite Htok. by rewrite app_nil_r.
Qed.

Lemma generate_stream_yields_fragments_witness :
  let r := sample_response
             [line_Hel; ""; line_lo; line_done; line_garbage; line_Hel] in
  let out := run (serve r) sample_self
               (generate_stream sample_json_loads "qwen3" "Hi" None) in
  produced out = [JString "Hel"; JString "lo"] ∧ result out = Returned tt.
Proof.
  apply (generate_stream_yields_fragments sample_json_loads sample_self
           "qwen3" "Hi" None
           (sample_response [line_Hel; ""; line_lo; line_done; line_garbage; line_Hel])
           [line_Hel; ""; line_lo] [obj_Hel; obj_lo] ["Hel"; "lo"]
           line_done obj_done [line_garbage; line_Hel]).
  - reflexivity.
  - reflexivity.
  - apply ndjson_object; [discriminate | reflexivity |].
    apply ndjson_blank.
    apply ndjson_object; [discriminate | reflexivity |].
    apply ndjson_nil.
  - repeat constructor.
  - discriminate.
  - reflexivity.
  - reflexivity.
Defined.

(** *** Request bodies *)

Lemma add_params_lookup (request_data : gmap string json) params k :
  add_params request_data params !! k =
  match options params !! k with
  | Some v => Some v
  | None => request_data !! k
  end.
Proof.
  unfold add_params, params_truthy, options, update.
  destruct params as [m|]; simpl; [|by rewrite lookup_empty].
  case_bool_decide as Hm; simpl.
  - subst m. by rewrite lookup_empty.
  - rewrite lookup_union. by destruct (m !! k), (request_data !! k).
Qed.

Lemma set_default_max_tokens_lookup (request_data : gmap string json) k :
  set_default_max_tokens request_data !! k =
  if decide (k = "max_tokens")
  then Some (default (JInt MAX_TOKENS) (request_data !! "max_tokens"))
  else request_data !! k.
Proof.
  unfold set_default_max_tokens.
  case_bool_decide as Habsent; case_decide as Hk; subst.
  - by rewrite lookup_insert_eq, Habsent.
  - by rewrite lookup_insert_ne.
  - by destruct (request_data !! "max_tokens").
  - done.
Qed.

Lemma bodies_perform json_loads c t self :
  bodies (perform json_loads c t self) = omap req_json [request_of c self].
Proof.
  unfold bodies. by destruct (perform_exchange json_loads c t self) as [-> _].
Qed.

(** C3. Whatever the server does, a [generate] or [generate_stream] call
    transmits exactly one body; without a [max_tokens] key among the options
    the body carries [max_tokens = MAX_TOKENS] (2048), and with one it
    carries the caller's value. *)
Theorem generate_max_tokens_default json_loads t self c model prompt params :
  c = Generate model prompt params ∨ c = GenerateStream model prompt params ->
  ∃ body,
    bodies (perform json_loads c t self) = [body] ∧
    (options params !! "max_tokens" = None ->
     body !! "max_tokens" = Some (JInt MAX_TOKENS) ∧ MAX_TOKENS = 2048) ∧
    (∀ v, options params !! "max_tokens" = Some v ->
          body !! "max_tokens" = Some v).
Proof.
  intros [-> | ->]; rewrite bodies_perform; simpl;
    (eexists; split; [reflexivity|]);
    rewrite set_default_max_tokens_lookup, add_params_lookup; simpl;
    (split; [intros ->; by simplify_map_eq | by intros v ->]).
Qed.

Lemma generate_max_tokens_default_witness :
  ∃ body,
    bodies (perform sample_json_loads (GenerateStream "qwen3" "Hi" None)
              (serve (sample_response [line_Hel; line_done])) sample_self) = [body] ∧
    (options None !! "max_tokens" = None ->
     body !! "max_tokens" = Some (JInt MAX_TOKENS) ∧ MAX_TOKENS = 2048) ∧
    (∀ v, options None !! "max_tokens" = Some v ->
          body !! "max_tokens" = Some v).
Proof.
  apply (generate_max_tokens_default sample_json_loads
           (serve (sample_response [line_Hel; line_done])) sample_self
           (GenerateStream "qwen3" "Hi" None) "qwen3" "Hi" None).
  right. reflexivity.
Defined.

(** C4, as the specification states it, fails: a [chat] call without
    options transmits a body that has only [model] and [messages], and a
    [chat_stream] call one that has only [model], [messages] and [stream];
    neither carries a [max_tokens] entry. *)
Lemma chat_sends_no_max_tokens :
  let messages := [JObject {[ "role" := JString "user"; "content" := JString "Hi" ]}] in
  let sample := serve (sample_response [line_done]) in
  bodies (perform sample_json_loads (Chat "qwen3" messages None) sample sample_self)
  = [ {[ "model" := JString "qwen3"; "messages" := JArray messages ]} ] ∧
  bodies (perform sample_json_loads (ChatStream "qwen3" messages None) sample sample_self)
  = [ {[ "model" := JString "qwen3"; "messages" := JArray messages;
         "stream" := JBool true ]} ] ∧
  ¬ ∃ body,
      bodies (perform sample_json_loads (Chat "qwen3" messages None) sample sample_self)
      = [body] ∧
      body !! "max_tokens" = Some (JInt MAX_TOKENS).
Proof.
  intros messages sample. rewrite !bodies_perform. simpl.
  split; [reflexivity|]. split; [reflexivity|].
  intros (body & Hbody & Hmax). injection Hbody as <-.
  rewrite add_params_lookup in Hmax. simpl in Hmax.
  by simplify_map_eq.
Qed.

(** C4, amended. A [chat] or [chat_stream] call transmits exactly one body,
    whose [max_tokens] entry is the caller's, if the options have one, and
    is absent otherwise: no default ceiling is added.  The body carries the
    messages under [messages], unless the options replace that entry. *)
Theorem chat_max_tokens_as_given json_loads t self c model messages params :
  c = Chat model messages params ∨ c = ChatStream model messages params ->
  ∃ body,
    bodies (perform json_loads c t self) = [body] ∧
    body !! "max_tokens" = options params !! "max_tokens" ∧
    body !! "messages" =
      Some (default (JArray messages) (options params !! "messages")).
Proof.
  intros [-> | ->]; rewrite bodies_perform; simpl;
    (eexists; split; [reflexivity|]);
    rewrite !add_params_lookup;
    (split; [by destruct (options params !! "max_tokens")
            | by destruct (options params !! "messages")]).
Qed.

Lemma chat_max_tokens_as_given_witness :
  ∃ body,
    bodies (perform sample_json_loads
              (ChatStream "qwen3" [JObject {[ "role" := JString "user" ]}]
                 (Some {[ "temperature" := JInt 0 ]}))
              (refuse {| exc_class := ConnectionError; exc_text := "refused" |})
              sample_self) = [body] ∧
    body !! "max_tokens" = options (Some {[ "temperature" := JInt 0 ]}) !! "max_tokens" ∧
    body !! "messages" =
      Some (default (JArray [JObject {[ "role" := JString "user" ]}])
              (options (Some {[ "temperature" := JInt 0 ]}) !! "messages")).
Proof.
  apply (chat_max_tokens_as_given sample_json_loads
           (refuse {| exc_class := ConnectionError; exc_text := "refused" |})
           sample_self
           (ChatStream "qwen3" [JObject {[ "role" := JString "user" ]}]
              (Some {[ "temperature" := JInt 0 ]}))
           "qwen3" [JObject {[ "role" := JString "user" ]}]
           (Some {[ "temperature" := JInt 0 ]})).
  right. reflexivity.
Defined.

(** C10. The options are merged into the body after the base fields are
    set.  The one body a call other than [list_models] transmits has, under
    every key, the value the options give it, if they give one (also for
    [model], [prompt], [messages] and [stream]), and otherwise the value of
    the base fields: a key of the options replaces the base value, and
    every base field the options do not name is transmitted as it was
    set. *)
Theorem options_override_base_fields json_loads c t self :
  c ≠ ListModels ->
  ∃ body,
    bodies (perform json_loads c t self) = [body] ∧
    (∀ key v, options (params_of c) !! key = Some v -> body !! key = Some v) ∧
    (∀ key, options (params_of c) !! key = None ->
            body !! key = base_fields c !! key).
Proof.
  intros Hc. rewrite bodies_perform.
  destruct c as [|model prompt params|model prompt params
                |model messages params|model messages params];
    [done|..]; simpl; (eexists; split; [reflexivity|]); split.
  - intros key v Hkey.
    rewrite set_default_max_tokens_lookup, !add_params_lookup, Hkey.
    by case_decide; subst; rewrite ?Hkey.
  - intros key Hkey.
    rewrite set_default_max_tokens_lookup, !add_params_lookup, Hkey.
    case_decide as Hmax; [subst key; rewrite Hkey; by simplify_map_eq|].
    symmetry. by apply lookup_insert_ne.
  - intros key v Hkey.
    rewrite set_default_max_tokens_lookup, !add_params_lookup, Hkey.
    by case_decide; subst; rewrite ?Hkey.
  - intros key Hkey.
    rewrite set_default_max_tokens_lookup, !add_params_lookup, Hkey.
    case_decide as Hmax; [subst key; rewrite Hkey; by simplify_map_eq|].
    symmetry. by apply lookup_insert_ne.
  - intros key v Hkey. by rewrite add_params_lookup, Hkey.
  - intros key Hkey. by rewrite add_params_lookup, Hkey.
  - intros key v Hkey. by rewrite add_params_lookup, Hkey.
  - intros key Hkey. by rewrite add_params_lookup, Hkey.
Qed.

Lemma options_override_base_fields_witness :
  let c := GenerateStream "qwen3" "Hi" (Some {[ "stream" := JBool false ]}) in
  ∃ body,
    bodies (perform sample_json_loads c (serve (sample_response [line_done]))
              sample_self) = [body] ∧
    body !! "stream" = Some (JBool false) ∧
    body !! "model" = Some (JString "qwen3") ∧
    body !! "prompt" = Some (JString "Hi") ∧
    body !! "max_tokens" = Some (JInt 2048).
Proof.
  intros c.
  destruct (options_override_base_fields sample_json_loads c
              (serve (sample_response [line_done])) sample_self)
    as (body & Hbody & Hgiven & Hbase); [discriminate|].
  exists body. split; [exact Hbody|]. split; [|split; [|split]].
  - apply Hgiven. reflexivity.
  - rewrite Hbase; reflexivity.
  - rewrite Hbase; reflexivity.
  - rewrite Hbase; reflexivity.
Defined.

(** *** Failures *)

Lemma includes_suffix prefix text : includes (prefix +:+ text) text.
Proof.
  exists prefix, "". f_equal.
  induction text as [|a text IH]; [reflexivity|].
  change (String a text = String a (text +:+ "")). by f_equal.
Qed.

(** C5. When the exchange of a call fails with a transport error (the
    connection cannot be established, or the status of the response is
    rejected), the call raises an exception whose message is the method's
    prefix followed by the text of the transport error, and so includes
    that text. *)
Theorem transport_failure_message json_loads c t self e :
  fails_with (t (request_of c self)) e ->
  ∃ msg,
    obs_raised (perform json_loads c t self) = Some (Exception msg) ∧
    msg = error_prefix c +:+ exc_text e ∧
    includes msg (exc_text e).
Proof.
  intros Hfail. rewrite (perform_failed _ _ _ _ _ Hfail). simpl.
  eexists; split; [reflexivity|]. split; [reflexivity|]. apply includes_suffix.
Qed.

Lemma transport_failure_message_witness :
  let e := {| exc_class := HTTPError;
              exc_text := "500 Server Error: Internal Server Error for url: http://localhost:11434/api/chat" |} in
  let r := {| raise_for_status_exc := Some e; json_result := Returned JNull;
              iter_lines := []; iter_lines_exc := None |} in
  ∃ msg,
    obs_raised (perform sample_json_loads (Chat "qwen3" [] None) (serve r) sample_self)
    = Some (Exception msg) ∧
    msg = chat_error +:+ exc_text e ∧
    includes msg (exc_text e).
Proof.
  intros e r.
  apply (transport_failure_message sample_json_loads (Chat "qwen3" [] None)
           (serve r) sample_self e).
  right. exists r. split; reflexivity.
Defined.

(** C6, as the specification states it, fails: a request that times out and
    a connection that is refused both make [list_models] raise an exception
    of the plain class [Exception]; the class of what is raised does not
    tell a timeout from a connection failure. *)
Lemma timeout_is_not_a_distinct_condition :
  let timed_out := {| exc_class := Timeout; exc_text := "Read timed out. (read timeout=30)" |} in
  let refused := {| exc_class := ConnectionError; exc_text := "Connection refused" |} in
  let raised e := obs_raised (perform sample_json_loads ListModels (refuse e) sample_self) in
  type_of_exn <$> raised timed_out = Some TyException ∧
  type_of_exn <$> raised refused = Some TyException ∧
  ¬ (∀ e1 e2, exc_class e1 = Timeout -> exc_class e2 = ConnectionError ->
              type_of_exn <$> raised e1 ≠ type_of_exn <$> raised e2).
Proof.
  intros timed_out refused raised.
  assert (Hr : ∀ e, raised e = Some (Exception (list_models_error +:+ exc_text e))).
  { intros e. unfold raised.
    by rewrite (perform_failed _ ListModels (refuse e) sample_self e); [|left]. }
  rewrite !Hr. repeat split.
  intros Hdistinct. apply (Hdistinct timed_out refused); [done..|].
  by rewrite !Hr.
Qed.

(** C6, amended. Every transport failure of a call, whatever its class
    (connection failure, rejected status or timeout), makes the call raise
    an exception of one and the same class, the plain [Exception], whose
    message is the method's prefix followed by the text of the transport
    error. *)
Theorem transport_failures_share_one_condition json_loads c t self e :
  fails_with (t (request_of c self)) e ->
  type_of_exn <$> obs_raised (perform json_loads c t self) = Some TyException ∧
  message_of_exn <$> obs_raised (perform json_loads c t self)
  = Some (error_prefix c +:+ exc_text e).
Proof.
  intros Hfail. rewrite (perform_failed _ _ _ _ _ Hfail). simpl.
  by split.
Qed.

Lemma transport_failures_share_one_condition_witness :
  let e := {| exc_class := Timeout; exc_text := "Read timed out. (read timeout=30)" |} in
  let c := GenerateStream "qwen3" "Hi" None in
  type_of_exn <$> obs_raised (perform sample_json_loads c (refuse e) sample_self)
  = Some TyException ∧
  message_of_exn <$> obs_raised (perform sample_json_loads c (refuse e) sample_self)
  = Some (error_prefix c +:+ exc_text e).
Proof.
  intros e c.
  apply (transport_failures_share_one_condition sample_json_loads c (refuse e)
           sample_self e).
  left. reflexivity.
Defined.

(** *** The object state *)

(** C8. The state of a client is its three endpoint URLs.  The constructor
    sets them to the URLs configured for localhost:11434, or, when a
    non-empty [base_url] is given, to [base_url] followed by [/api/tags],
    [/api/generate] and [/api/chat], and it sends nothing; no call of
    [list_models], [generate], [generate_stream], [chat] or [chat_stream]
    changes any of the three, however the exchange goes. *)
Theorem endpoints_fixed_at_construction json_loads base_url t fresh :
  let constructed := run t fresh (__init__ base_url) in
  final_self constructed =
    match base_url with
    | Some (String a rest) =>
        {| api_models := String a rest +:+ "/api/tags";
           api_generate := String a rest +:+ "/api/generate";
           api_chat := String a rest +:+ "/api/chat" |}
    | _ =>
        {| api_models := "http://localhost:11434/api/tags";
           api_generate := "http://localhost:11434/api/generate";
           api_chat := "http://localhost:11434/api/chat" |}
    end ∧
  sent constructed = [] ∧
  ∀ c t' self, obs_self (perform json_loads c t' self) = self.
Proof.
  split; [|split].
  - by destruct base_url as [[|a rest]|].
  - by destruct base_url as [[|a rest]|].
  - intros c t' self. apply perform_exchange.
Qed.

(** *** Streams *)

Lemma existsb_is_done objs :
  Exists (λ m, is_done m = true) objs ↔ existsb is_done objs = true.
Proof.
  induction objs as [|m objs IH]; simpl.
  - split; [by intros ?%Exists_nil | done].
  - rewrite Exists_cons, IH. destruct (is_done m); intuition congruence.
Qed.

Lemma through_done_none objs :
  Forall (λ m, is_done m = false) objs -> through_done objs = objs.
Proof. induction 1 as [|m objs Hm _ IH]; simpl; [done|]. by rewrite Hm, IH. Qed.

Lemma through_done_first pre last post :
  Forall (λ m, is_done m = false) pre -> is_done last = true ->
  through_done (pre ++ last :: post) = pre ++ [last].
Proof.
  intros Hpre Hlast. induction Hpre as [|m pre Hm _ IH]; simpl.
  - by rewrite Hlast.
  - by rewrite Hm, IH.
Qed.

(** The whole loop of [chat_stream] over a stream whose lines are valid as
    far as they are read. *)
Lemma chat_stream_loop json_loads t self broken valid objs tail :
  ndjson_objects json_loads valid objs ->
  tail = [] ∨ Exists (λ m, is_done m = true) objs ->
  run t self (for_in (valid ++ tail) broken (chat_stream_body json_loads)) =
  {| final_self := self; sent := [];
     produced := JObject <$> through_done objs;
     result := if existsb is_done objs then Returned tt
               else match broken with
                    | Some e => Raised (RequestsExc e)
                    | None => Returned tt
                    end |}.
Proof.
  induction 1 as [|lines objs _ IH|line m lines objs Hne Hload _ IH];
    intros Hend; simpl.
  - destruct Hend as [->|Hex]; [by destruct broken | by apply Exists_nil in Hex].
  - by apply IH.
  - rewrite (chat_stream_body_object _ _ _ Hne Hload).
    destruct (is_done m) eqn:Hm; simpl; [done|].
    rewrite IH; [done|].
    destruct Hend as [->|Hex]; [by left | right].
    apply Exists_cons in Hex as [Hex|Hex]; [congruence | done].
Qed.

Lemma chat_stream_run_valid
    json_loads self model messages params r valid objs tail :
  raise_for_status_exc r = None ->
  iter_lines r = valid ++ tail ->
  ndjson_objects json_loads valid objs ->
  tail = [] ∨ Exists (λ m, is_done m = true) objs ->
  run (serve r) self (chat_stream json_loads model messages params) =
  {| final_self := self;
     sent := [chat_stream_request self model messages params];
     produced := JObject <$> through_done objs;
     result := if existsb is_done objs then Returned tt
               else match iter_lines_exc r with
                    | Some e => Raised (Exception (chat_stream_error +:+ exc_text e))
                    | None => Returned tt
                    end |}.
Proof.
  intros Hstatus Hlines Hvalid Hend.
  rewrite chat_stream_run. unfold serve. cbv zeta. rewrite Hstatus.
  rewrite run_try_except, Hlines, (chat_stream_loop _ _ _ _ _ _ _ Hvalid Hend).
  simpl. destruct (existsb is_done objs); [done|].
  destruct (iter_lines_exc r); [|done].
  unfold followed_by, sending; simpl. by rewrite app_nil_r.
Qed.

(** C2. When the response stream of [chat_stream] is NDJSON at least up to
    its first object with [done] true (every line is blank or carries an
    object), the generator yields the parsed objects themselves, in arrival
    order, up to and including the first one whose [done] is true, and
    nothing after it; it ends normally when there was such an object or the
    connection ended cleanly. *)
Theorem chat_stream_yields_objects
    json_loads self model messages params r valid objs tail :
  raise_for_status_exc r = None ->
  iter_lines r = valid ++ tail ->
  ndjson_objects json_loads valid objs ->
  tail = [] ∨ Exists (λ m, is_done m = true) objs ->
  let out := run (serve r) self (chat_stream json_loads model messages params) in
  produced out = JObject <$> through_done objs ∧
  (Exists (λ m, is_done m = true) objs ∨ iter_lines_exc r = None ->
   result out = Returned tt) ∧
  (∀ pre last post, objs = pre ++ last :: post ->
     Forall (λ m, is_done m = false) pre -> is_done last = true ->
     produced out = JObject <$> (pre ++ [last])) ∧
  (Forall (λ m, is_done m = false) objs -> produced out = JObject <$> objs).
Proof.
  intros Hstatus Hlines Hvalid Hend out. subst out.
  rewrite (chat_stream_run_valid _ _ _ _ _ _ _ _ _ Hstatus Hlines Hvalid Hend).
  simpl. split; [done|]. split; [|split].
  - intros [Hex%existsb_is_done | Hclean].
    + by rewrite Hex.
    + rewrite Hclean. by destruct (existsb is_done objs).
  - intros pre last post -> Hpre Hlast.
    by rewrite (through_done_first pre last post Hpre Hlast).
  - intros Hnone. by rewrite (through_done_none objs Hnone).
Qed.

Lemma chat_stream_yields_objects_witness :
  let r := sample_response [line_Hel; ""; line_lo; line_done; line_garbage; line_Hel] in
  let out := run (serve r) sample_self
               (chat_stream sample_json_loads "qwen3" [] None) in
  produced out = [JObject obj_Hel; JObject obj_lo; JObject obj_done] ∧
  result out = Returned tt.
Proof.
  intros r out.
  destruct (chat_stream_yields_objects sample_json_loads sample_self
              "qwen3" [] None r
              [line_Hel; ""; line_lo; line_done] [obj_Hel; obj_lo; obj_done]
              [line_garbage; line_Hel]) as (Hproduced & Hresult & _).
  - reflexivity.
  - reflexivity.
  - apply ndjson_object; [discriminate | reflexivity |].
    apply ndjson_blank.
    apply ndjson_object; [discriminate | reflexivity |].
    apply ndjson_object; [discriminate | reflexivity |].
    apply ndjson_nil.
  - right. apply Exists_cons_tl, Exists_cons_tl, Exists_cons_hd. reflexivity.
  - split; [exact Hproduced|]. apply Hresult. left.
    apply Exists_cons_tl, Exists_cons_tl, Exists_cons_hd. reflexivity.
Defined.

(** *** Malformed and incomplete responses *)




(** C9, as the specification states it, fails: a body that parses to a JSON
    value other than an object has no [get], so [list_models] and
    [generate] raise [AttributeError] instead of returning the default; and
    a line of [generate_stream] whose object lacks [response] and has
    [done] true ends the stream without yielding an element. *)
Lemma missing_field_without_default :
  let answer v := {| raise_for_status_exc := None; json_result := Returned v;
                     iter_lines := [line_Hel; line_done_only];
                     iter_lines_exc := None |} in
  let loads line := if bool_decide (line = line_done_only)
                    then inl (JObject {[ "done" := JBool true ]})
                    else sample_json_loads line in
  result (run (serve (answer (JArray []))) sample_self list_models)
  = Raised (AttributeError "'list' object has no attribute 'get'") ∧
  result (run (serve (answer JNull)) sample_self (generate "qwen3" "Hi" None))
  = Raised (AttributeError "'NoneType' object has no attribute 'get'") ∧
  produced (run (serve (answer JNull)) sample_self
              (generate_stream loads "qwen3" "Hi" None))
  = [JString "Hel"].
Proof. vm_compute. repeat split. Qed.

(** C9, amended. When the parsed body is an object without the expected
    field, the call returns a default: [list_models] the empty list for a missing
    [models], [generate] the empty string for a missing [response]; and in
    [generate_stream] a line that is reached, carries an object without
    [response] and is not the [done] object yields the empty string as its
    element, after the elements of the lines before it. *)
Theorem missing_field_defaults json_loads self r :
  raise_for_status_exc r = None ->
  (∀ m, json_result r = Returned (JObject m) -> m !! "models" = None ->
        result (run (serve r) self list_models) = Returned (JArray [])) ∧
  (∀ m model prompt params,
     json_result r = Returned (JObject m) -> m !! "response" = None ->
     result (run (serve r) self (generate model prompt params))
     = Returned (JString "")) ∧
  (∀ model prompt params pre objs line m tail,
     iter_lines r = pre ++ line :: tail ->
     ndjson_objects json_loads pre objs ->
     Forall (λ m, is_done m = false) objs ->
     line ≠ "" -> json_loads line = inl (JObject m) ->
     m !! "response" = None -> is_done m = false ->
     ∃ rest,
       produced (run (serve r) self (generate_stream json_loads model prompt params))
       = (token_of <$> objs) ++ JString "" :: rest).
Proof.
  intros Hstatus. split; [|split].
  - intros m Hjson Hmissing. rewrite list_models_run. unfold serve. cbv zeta.
    rewrite Hstatus, Hjson. simpl. by rewrite Hmissing.
  - intros m model prompt params Hjson Hmissing.
    rewrite generate_run. unfold serve. cbv zeta.
    rewrite Hstatus, Hjson. simpl. by rewrite Hmissing.
  - intros model prompt params pre objs line m tail
      Hlines Hpre Hnd Hne Hload Hmissing Hm.
    rewrite generate_stream_run. unfold serve. cbv zeta.
    rewrite Hstatus.
    match goal with
    | |- context [produced (sending ?req ?x)] =>
        change (produced (sending req x)) with (produced x)
    end.
    rewrite produced_try_reraise, Hlines.
    rewrite (generate_stream_loop_prefix _ _ _ _ _ _ _ Hpre Hnd). simpl.
    rewrite (generate_stream_body_object _ _ _ Hne Hload), Hm. simpl.
    unfold token_of at 2. rewrite Hmissing. simpl. eauto.
Qed.

Lemma missing_field_defaults_witness :
  let r := {| raise_for_status_exc := None;
              json_result := Returned (JObject obj_bare);
              iter_lines := [line_Hel; line_bare; line_done];
              iter_lines_exc := None |} in
  result (run (serve r) sample_self list_models) = Returned (JArray []) ∧
  result (run (serve r) sample_self (generate "qwen3" "Hi" None))
  = Returned (JString "") ∧
  ∃ rest,
    produced (run (serve r) sample_self
                (generate_stream sample_json_loads "qwen3" "Hi" None))
    = [JString "Hel"] ++ JString "" :: rest.
Proof.
  intros r.
  destruct (missing_field_defaults sample_json_loads sample_self r eq_refl)
    as (Hmodels & Hresponse & Hline).
  split; [|split].
  - apply (Hmodels obj_bare); reflexivity.
  - apply (Hresponse obj_bare); reflexivity.
  - apply (Hline "qwen3" "Hi" None [line_Hel] [obj_Hel] line_bare obj_bare [line_done]).
    + reflexivity.
    + apply ndjson_object; [discriminate | reflexivity |]. apply ndjson_nil.
    + repeat constructor.
    + discriminate.
    + reflexivity.
    + reflexivity.
    + reflexivity.
Defined.

Set Warnings "-clear-no-such-hyp".

(** ** Further properties of the client *)

(** X1. Each call performs exactly one HTTP exchange, with no retry, whatever
    the transport answers: a [GET] without body for [list_models] and a
    [POST] with a JSON body otherwise, to the URL held by the object, with
    the timeout of 30 seconds, and with [stream=True] for the two
    generators only. *)
Theorem one_exchange_per_call json_loads c t self :
  ∃ req,
    obs_sent (perform json_loads c t self) = [req] ∧
    req_url req = get_attr self (endpoint c) ∧
    req_method req = (match c with ListModels => GET | _ => POST end) ∧
    req_timeout req = 30 ∧
    req_stream req = streaming c ∧
    (req_json req = None ↔ c = ListModels).
Proof.
  exists (request_of c self).
  split; [apply perform_exchange|].
  destruct c; simpl; repeat split; intros; done.
Qed.

Lemma before_done_none objs :
  Forall (λ m, is_done m = false) objs -> before_done objs = objs.
Proof. induction 1 as [|m objs Hm _ IH]; simpl; [done|]. by rewrite Hm, IH. Qed.

Lemma before_done_first pre last post :
  Forall (λ m, is_done m = false) pre -> is_done last = true ->
  before_done (pre ++ last :: post) = pre.
Proof.
  intros Hpre Hlast. induction Hpre as [|m pre Hm _ IH]; simpl.
  - by rewrite Hlast.
  - by rewrite Hm, IH.
Qed.

(** The whole loop of [generate_stream] over a stream whose lines are valid
    as far as they are read. *)
Lemma generate_stream_loop json_loads t self broken valid objs tail :
  ndjson_objects json_loads valid objs ->
  tail = [] ∨ Exists (λ m, is_done m = true) objs ->
  run t self (for_in (valid ++ tail) broken (generate_stream_body json_loads)) =
  {| final_self := self; sent := [];
     produced := token_of <$> before_done objs;
     result := if existsb is_done objs then Returned tt
               else match broken with
                    | Some e => Raised (RequestsExc e)
                    | None => Returned tt
                    end |}.
Proof.
  induction 1 as [|lines objs _ IH|line m lines objs Hne Hload _ IH];
    intros Hend; simpl.
  - destruct Hend as [->|Hex]; [by destruct broken | by apply Exists_nil in Hex].
  - by apply IH.
  - rewrite (generate_stream_body_object _ _ _ Hne Hload).
    destruct (is_done m) eqn:Hm; simpl; [done|].
    rewrite IH; [done|].
    destruct Hend as [->|Hex]; [by left | right].
    apply Exists_cons in Hex as [Hex|Hex]; [congruence | done].
Qed.

Lemma generate_stream_run_valid
    json_loads self model prompt params r valid objs tail :
  raise_for_status_exc r = None ->
  iter_lines r = valid ++ tail ->
  ndjson_objects json_loads valid objs ->
  tail = [] ∨ Exists (λ m, is_done m = true) objs ->
  run (serve r) self (generate_stream json_loads model prompt params) =
  {| final_self := self;
     sent := [generate_stream_request self model prompt params];
     produced := token_of <$> before_done objs;
     result := if existsb is_done objs then Returned tt
               else match iter_lines_exc r with
                    | Some e =>
                        Raised (Exception (generate_stream_error +:+ exc_text e))
                    | None => Returned tt
                    end |}.
Proof.
  intros Hstatus Hlines Hvalid Hend.
  rewrite generate_stream_run. unfold serve. cbv zeta. rewrite Hstatus.
  rewrite run_try_except, Hlines, (generate_stream_loop _ _ _ _ _ _ _ Hvalid Hend).
  simpl. destruct (existsb is_done objs); [done|].
  destruct (iter_lines_exc r); [|done].
  unfold followed_by, sending; simpl. by rewrite app_nil_r.
Qed.

(** X2. On a stream whose lines, as far as they are read, are blank or carry
    objects, [generate_stream] yields the [response] entry of every object
    that comes before the first object with a true [done] (the empty string
    where the entry is missing), for any JSON value that Python counts as
    true, and then ends normally.  Without such an object it yields the
    entry of every object, and ends normally when the lines run out: the
    end of the body is taken as the end of the stream, and no error is
    raised for the missing [done]. *)
Theorem generate_stream_on_ndjson
    json_loads self model prompt params r valid objs tail :
  raise_for_status_exc r = None ->
  iter_lines r = valid ++ tail ->
  ndjson_objects json_loads valid objs ->
  tail = [] ∨ Exists (λ m, is_done m = true) objs ->
  let out := run (serve r) self (generate_stream json_loads model prompt params) in
  produced out = token_of <$> before_done objs ∧
  (∀ pre last post, objs = pre ++ last :: post ->
     Forall (λ m, is_done m = false) pre -> is_done last = true ->
     produced out = token_of <$> pre ∧ result out = Returned tt) ∧
  (Forall (λ m, is_done m = false) objs -> iter_lines_exc r = None ->
   produced out = token_of <$> objs ∧ result out = Returned tt).
Proof.
  intros Hstatus Hlines Hvalid Hend out. subst out.
  rewrite (generate_stream_run_valid _ _ _ _ _ _ _ _ _ Hstatus Hlines Hvalid Hend).
  simpl. split; [done|]. split.
  - intros pre last post -> Hpre Hlast.
    rewrite (before_done_first pre last post Hpre Hlast). split; [done|].
    assert (Hex : existsb is_done (pre ++ last :: post) = true).
    { apply existsb_is_done, Exists_app. right. by left. }
    by rewrite Hex.
  - intros Hnone Hclean. rewrite (before_done_none objs Hnone), Hclean.
    split; [done|]. by destruct (existsb is_done objs).
Qed.

Lemma generate_stream_on_ndjson_witness :
  let r := sample_response [line_Hel; ""; line_lo] in
  let out := run (serve r) sample_self
               (generate_stream sample_json_loads "qwen3" "Hi" None) in
  produced out = [JString "Hel"; JString "lo"] ∧ result out = Returned tt.
Proof.
  intros r out.
  destruct (generate_stream_on_ndjson sample_json_loads sample_self
              "qwen3" "Hi" None r [line_Hel; ""; line_lo] [obj_Hel; obj_lo] [])
    as (_ & _ & Hall).
  - reflexivity.
  - reflexivity.
  - apply ndjson_object; [discriminate | reflexivity |].
    apply ndjson_blank.
    apply ndjson_object; [discriminate | reflexivity |].
    apply ndjson_nil.
  - left. reflexivity.
  - apply Hall; [repeat constructor | reflexivity].
Defined.

Lemma py_get_not_object v key dflt :
  (∀ m, v ≠ JObject m) ->
  py_get v key dflt =
  Raised (AttributeError ("'" +:+ py_type_name v +:+ "' object has no attribute 'get'")).
Proof. intros Hv. destruct v; try done. by destruct (Hv m). Qed.

(** X3. A line that is valid JSON but not an object (a list, a string, a
    number, ...) makes both generators fail with the [AttributeError] of
    the missing [get] method, which the [except] clause does not catch.
    [generate_stream] has yielded the tokens of the lines before it;
    [chat_stream] has in addition already yielded the offending value
    itself, because it yields before it looks at [done]. *)
Theorem non_object_line_raises_attribute_error
    json_loads self model prompt messages params r pre objs line v tail :
  raise_for_status_exc r = None ->
  iter_lines r = pre ++ line :: tail ->
  ndjson_objects json_loads pre objs ->
  Forall (λ m, is_done m = false) objs ->
  line ≠ "" ->
  json_loads line = inl v ->
  (∀ m, v ≠ JObject m) ->
  let error := AttributeError
                 ("'" +:+ py_type_name v +:+ "' object has no attribute 'get'") in
  let tokens := run (serve r) self (generate_stream json_loads model prompt params) in
  let parts := run (serve r) self (chat_stream json_loads model messages params) in
  produced tokens = token_of <$> objs ∧ result tokens = Raised error ∧
  produced parts = (JObject <$> objs) ++ [v] ∧ result parts = Raised error.
Proof.
  intros Hstatus Hlines Hpre Hnd Hne Hload Hv error tokens parts.
  subst tokens parts.
  rewrite generate_stream_run, chat_stream_run. unfold serve. cbv zeta.
  rewrite Hstatus, !run_try_except, Hlines.
  rewrite (generate_stream_loop_prefix _ _ _ _ _ _ _ Hpre Hnd).
  rewrite (chat_stream_loop_prefix _ _ _ _ _ _ _ Hpre Hnd).
  simpl. unfold generate_stream_body, chat_stream_body, loads.
  rewrite (bytes_truthy_nonempty _ Hne), Hload. simpl.
  rewrite !(py_get_not_object v _ _ Hv). simpl.
  by rewrite app_nil_r.
Qed.

Lemma non_object_line_raises_attribute_error_witness :
  let loads line := if bool_decide (line = "[1]") then inl (JArray [JInt 1])
                    else sample_json_loads line in
  let r := sample_response [line_Hel; "[1]"; line_done] in
  let error := AttributeError "'list' object has no attribute 'get'" in
  let tokens := run (serve r) sample_self (generate_stream loads "qwen3" "Hi" None) in
  let parts := run (serve r) sample_self (chat_stream loads "qwen3" [] None) in
  produced tokens = [JString "Hel"] ∧ result tokens = Raised error ∧
  produced parts = [JObject obj_Hel; JArray [JInt 1]] ∧ result parts = Raised error.
Proof.
  intros loads r.
  apply (non_object_line_raises_attribute_error loads sample_self
           "qwen3" "Hi" [] None r [line_Hel] [obj_Hel] "[1]" (JArray [JInt 1])
           [line_done]).
  - reflexivity.
  - reflexivity.
  - apply ndjson_object; [discriminate | reflexivity |]. apply ndjson_nil.
  - repeat constructor.
  - discriminate.
  - reflexivity.
  - discriminate.
Defined.

(** X4. When the connection breaks while the body is read ([iter_lines] raises
    one of the [requests] exceptions) and no [done] object has been seen,
    the elements of all the lines received so far have been yielded, and
    the generator then raises the [Exception] of its [except] clause with
    the text of the transport error. *)
Theorem broken_stream_raises_after_yielding
    json_loads self model prompt messages params r objs e :
  raise_for_status_exc r = None ->
  ndjson_objects json_loads (iter_lines r) objs ->
  Forall (λ m, is_done m = false) objs ->
  iter_lines_exc r = Some e ->
  let tokens := run (serve r) self (generate_stream json_loads model prompt params) in
  let parts := run (serve r) self (chat_stream json_loads model messages params) in
  produced tokens = token_of <$> objs ∧
  result tokens = Raised (Exception (generate_stream_error +:+ exc_text e)) ∧
  produced parts = JObject <$> objs ∧
  result parts = Raised (Exception (chat_stream_error +:+ exc_text e)).
Proof.
  intros Hstatus Hvalid Hnd Hbroken tokens parts. subst tokens parts.
  assert (Hlines : iter_lines r = iter_lines r ++ []) by by rewrite app_nil_r.
  rewrite (generate_stream_run_valid _ _ _ _ _ _ _ _ _ Hstatus Hlines Hvalid);
    [|by left].
  rewrite (chat_stream_run_valid _ _ _ _ _ _ _ _ _ Hstatus Hlines Hvalid);
    [|by left].
  simpl. rewrite Hbroken, (before_done_none _ Hnd), (through_done_none _ Hnd).
  assert (Hex : existsb is_done objs = false).
  { destruct (existsb is_done objs) eqn:Hex; [|done].
    apply existsb_is_done, Exists_exists in Hex as (m & Hin & Hm).
    rewrite Forall_forall in Hnd. specialize (Hnd m Hin). congruence. }
  by rewrite Hex.
Qed.

Lemma broken_stream_raises_after_yielding_witness :
  let cut := {| exc_class := ChunkedEncodingError; exc_text := "Connection broken" |} in
  let r := {| raise_for_status_exc := None; json_result := Returned JNull;
              iter_lines := [line_Hel; line_lo]; iter_lines_exc := Some cut |} in
  let tokens := run (serve r) sample_self
                  (generate_stream sample_json_loads "qwen3" "Hi" None) in
  let parts := run (serve r) sample_self
                 (chat_stream sample_json_loads "qwen3" [] None) in
  produced tokens = token_of <$> [obj_Hel; obj_lo] ∧
  result tokens = Raised (Exception (generate_stream_error +:+ "Connection broken")) ∧
  produced parts = JObject <$> [obj_Hel; obj_lo] ∧
  result parts = Raised (Exception (chat_stream_error +:+ "Connection broken")).
Proof.
  intros cut r.
  apply (broken_stream_raises_after_yielding sample_json_loads sample_self
           "qwen3" "Hi" [] None r [obj_Hel; obj_lo] cut).
  - reflexivity.
  - apply ndjson_object; [discriminate | reflexivity |].
    apply ndjson_object; [discriminate | reflexivity |].
    apply ndjson_nil.
  - repeat constructor.
  - reflexivity.
Defined.

(** X5. When the parsed body is an object that has the expected key,
    [list_models] and [generate] return the value under it unchanged if it
    is a list, a string or an object.  If it is [null], a number or a
    boolean, the call fails instead with the [TypeError] of the [len(...)]
    in its log message, which the [except] clause does not catch. *)
Theorem present_field_returned_or_type_error self r m v model prompt params :
  raise_for_status_exc r = None ->
  json_result r = Returned (JObject m) ->
  let outcome_for (v : json) :=
    if has_len v then Returned v
    else Raised (TypeError ("object of type '" +:+ py_type_name v +:+ "' has no len()")) in
  (m !! "models" = Some v ->
   result (run (serve r) self list_models) = outcome_for v) ∧
  (m !! "response" = Some v ->
   result (run (serve r) self (generate model prompt params)) = outcome_for v).
Proof.
  intros Hstatus Hjson outcome_for. subst outcome_for.
  rewrite list_models_run, generate_run. unfold serve. cbv zeta.
  rewrite Hstatus, Hjson. simpl.
  split; intros ->; simpl; by destruct v.
Qed.

Lemma present_field_returned_or_type_error_witness :
  let r := {| raise_for_status_exc := None;
              json_result := Returned (JObject {[ "models" := JNull ]});
              iter_lines := []; iter_lines_exc := None |} in
  result (run (serve r) sample_self list_models)
  = Raised (TypeError "object of type 'NoneType' has no len()").
Proof.
  intros r.
  destruct (present_field_returned_or_type_error sample_self r
              {[ "models" := JNull ]} JNull "qwen3" "Hi" None eq_refl eq_refl)
    as [Hmodels _].
  apply Hmodels. reflexivity.
Defined.

(** X6. [chat] returns the parsed body as it is, whatever JSON value it is: no
    field is looked up and nothing is defaulted. *)
Theorem chat_returns_parsed_body self r v model messages params :
  raise_for_status_exc r = None ->
  json_result r = Returned v ->
  run (serve r) self (chat model messages params) =
  {| final_self := self;
     sent := [chat_request self model messages params];
     produced := [];
     result := Returned v |}.
Proof.
  intros Hstatus Hjson. rewrite chat_run. unfold serve. cbv zeta.
  by rewrite Hstatus, Hjson.
Qed.

Lemma chat_returns_parsed_body_witness :
  let r := {| raise_for_status_exc := None; json_result := Returned (JArray []);
              iter_lines := []; iter_lines_exc := None |} in
  run (serve r) sample_self (chat "qwen3" [] None) =
  {| final_self := sample_self;
     sent := [chat_request sample_self "qwen3" [] None];
     produced := [];
     result := Returned (JArray []) |}.
Proof.
  intros r.
  apply (chat_returns_parsed_body sample_self r (JArray []) "qwen3" [] None);
    reflexivity.
Defined.

Lemma dom_add_params (request_data : gmap string json) params :
  dom (add_params request_data params) = dom (options params) ∪ dom request_data.
Proof.
  apply set_eq. intros k.
  rewrite elem_of_union, !elem_of_dom, add_params_lookup.
  destruct (options params !! k) as [v|]; [|rewrite <- !not_eq_None_Some]; naive_solver.
Qed.

Lemma dom_set_default_max_tokens (request_data : gmap string json) :
  dom (set_default_max_tokens request_data) = {[ "max_tokens" ]} ∪ dom request_data.
Proof.
  apply set_eq. intros k.
  rewrite elem_of_union, elem_of_singleton, !elem_of_dom,
    set_default_max_tokens_lookup.
  case_decide as Hk; [subst; naive_solver|]. naive_solver.
Qed.

(** X7. The body of a request has the method's own keys and the keys of the
    options, and no others: [model], [prompt] and [max_tokens] for
    [generate], with [stream] added for [generate_stream]; [model] and
    [messages] for [chat], with [stream] added for [chat_stream].  So the
    non-streaming calls send a [stream] entry only if the caller's options
    have one, and [list_models] sends no body at all. *)
Theorem request_body_keys json_loads c t self :
  match c with
  | ListModels => bodies (perform json_loads c t self) = []
  | _ =>
      ∃ body,
        bodies (perform json_loads c t self) = [body] ∧
        dom body =
          dom (options (params_of c)) ∪
          match c with
          | ListModels => ∅
          | Generate _ _ _ => {[ "model"; "prompt"; "max_tokens" ]}
          | GenerateStream _ _ _ => {[ "model"; "prompt"; "stream"; "max_tokens" ]}
          | Chat _ _ _ => {[ "model"; "messages" ]}
          | ChatStream _ _ _ => {[ "model"; "messages"; "stream" ]}
          end
  end.
Proof.
  rewrite bodies_perform.
  destruct c; simpl; [done|..]; (eexists; split; [reflexivity|]);
    rewrite ?dom_set_default_max_tokens, dom_add_params, ?dom_insert_L,
      dom_singleton_L; set_solver.
Qed.

(** ** The model manager *)

Lemma dict_lookup_set {V} (d : list (string * V)) key v key' :
  dict_lookup (dict_set d key v) key' =
  if bool_decide (key = key') then Some v else dict_lookup d key'.
Proof.
  induction d as [|[k x] d IH]; simpl; [done|].
  destruct (bool_decide (k = key)) eqn:Hk; simpl; rewrite ?IH;
    [apply bool_decide_eq_true in Hk | apply bool_decide_eq_false in Hk];
    repeat case_bool_decide; congruence.
Qed.

Lemma dict_keys_set {V} (d : list (string * V)) key v key' :
  key' ∈ dict_keys (dict_set d key v) ↔ key' = key ∨ key' ∈ dict_keys d.
Proof.
  unfold dict_keys. induction d as [|[k x] d IH]; simpl.
  - rewrite list_elem_of_singleton. set_solver.
  - case_bool_decide as Hk; simpl.
    + subst k. set_solver.
    + rewrite !elem_of_cons, IH. naive_solver.
Qed.

Lemma dict_keys_set_NoDup {V} (d : list (string * V)) key v :
  NoDup (dict_keys d) -> NoDup (dict_keys (dict_set d key v)).
Proof.
  unfold dict_keys. induction d as [|[k x] d IH]; simpl; intros Hnd.
  - apply NoDup_singleton.
  - apply NoDup_cons in Hnd as [Hk Hnd].
    case_bool_decide as Hkey; simpl.
    + subst k. by apply NoDup_cons.
    + apply NoDup_cons. split; [|by apply IH].
      intros Hin. apply (dict_keys_set d key v k) in Hin as [->|Hin]; done.
Qed.

Lemma dict_contains_lookup {V} (d : list (string * V)) key :
  dict_contains d key = true ↔ is_Some (dict_lookup d key).
Proof.
  unfold dict_contains, dict_keys. rewrite bool_decide_eq_true.
  induction d as [|[k x] d IH]; simpl.
  - split; [by intros ?%elem_of_nil | by intros [? ?]].
  - rewrite elem_of_cons, IH. case_bool_decide as Hk; naive_solver.
Qed.

Lemma before_colon_no_colon s : has_colon (before_colon s) = false.
Proof.
  induction s as [|c s IH]; simpl; [done|].
  case_bool_decide as Hc; simpl; [done|]. by rewrite bool_decide_false.
Qed.

Lemma descriptor_named_id model name :
  descriptor_named model name -> model_id_of model = inr (before_colon name).
Proof. intros (m & -> & Hname). unfold model_id_of. simpl. by rewrite Hname. Qed.

(** The loop over descriptors that are all well formed. *)
Lemma refresh_loop_named descriptors names self :
  Forall2 descriptor_named descriptors names ->
  refresh_loop descriptors self =
  ({| ollama_api := ollama_api self;
      installed_models :=
        dictionary_of (installed_models self)
          (zip (before_colon <$> names) descriptors) |}, None).
Proof.
  intros Hnamed. revert self.
  induction Hnamed as [|model name descriptors names Hmodel _ IH]; intros self.
  - by destruct self.
  - simpl. rewrite (descriptor_named_id _ _ Hmodel). by rewrite IH.
Qed.

Lemma refresh_loop_app good rest names self :
  Forall2 descriptor_named good names ->
  refresh_loop (good ++ rest) self =
  refresh_loop rest
    {| ollama_api := ollama_api self;
       installed_models :=
         dictionary_of (installed_models self) (zip (before_colon <$> names) good) |}.
Proof.
  intros Hnamed. revert self.
  induction Hnamed as [|model name descriptors names Hmodel _ IH]; intros self.
  - by destruct self.
  - simpl. rewrite (descriptor_named_id _ _ Hmodel). by rewrite IH.
Qed.

Lemma refresh_loop_ok models self :
  dictionary_ok (installed_models self) ->
  dictionary_ok (installed_models (refresh_loop models self).1) ∧
  ollama_api (refresh_loop models self).1 = ollama_api self.
Proof.
  revert self. induction models as [|model rest IH]; intros self Hok; simpl.
  - done.
  - unfold model_id_of.
    destruct (py_getitem model "name") as [e|name]; [done|].
    destruct name; simpl; try done.
    destruct (IH {| ollama_api := ollama_api self;
                    installed_models :=
                      dict_set (installed_models self) (before_colon s) model |})
      as [IHok IHapi]; [|done].
    simpl. destruct Hok as [Hnd Hcolon]. split.
    + by apply dict_keys_set_NoDup.
    + apply Forall_forall. intros key [->|Hin]%dict_keys_set.
      * apply before_colon_no_colon.
      * rewrite Forall_forall in Hcolon. by apply Hcolon.
Qed.

Lemma list_models_leaves_client t self :
  final_self (run t self list_models) = self ∧
  sent (run t self list_models) = [list_models_request self].
Proof.
  destruct (perform_exchange (λ _, inr (JSONDecodeError "")) ListModels t self) as [Hsent Hself].
  done.
Qed.



Lemma dictionary_of_lookup_other (d : list (string * json)) entries key :
  Forall (λ entry, entry.1 ≠ key) entries ->
  dict_lookup (dictionary_of d entries) key = dict_lookup d key.
Proof.
  intros Hother. revert d.
  induction Hother as [|[k v] entries Hk _ IH]; intros d; simpl; [done|].
  rewrite IH, dict_lookup_set. by rewrite bool_decide_false.
Qed.

Lemma dictionary_of_lookup_last (d : list (string * json)) entries i key model :
  entries !! i = Some (key, model) ->
  (∀ j entry, (i < j)%nat -> entries !! j = Some entry -> entry.1 ≠ key) ->
  dict_lookup (dictionary_of d entries) key = Some model.
Proof.
  revert d i. induction entries as [|[k v] entries IH]; intros d i Hi Hlast.
  - done.
  - destruct i as [|i]; simpl in *.
    + injection Hi as -> ->.
      rewrite dictionary_of_lookup_other.
      * rewrite dict_lookup_set. by rewrite bool_decide_true.
      * apply Forall_forall. intros entry [j Hj]%list_elem_of_lookup.
        apply (Hlast (S j)); [lia | done].
    + apply (IH _ i Hi). intros j entry Hij Hj.
      apply (Hlast (S j)); [lia | done].
Qed.

Lemma dictionary_of_keys (d : list (string * json)) entries key :
  key ∈ dict_keys (dictionary_of d entries) ↔ key ∈ dict_keys d ∨ key ∈ entries.*1.
Proof.
  revert d. induction entries as [|[k v] entries IH]; intros d; simpl.
  - set_solver.
  - rewrite IH, dict_keys_set. set_solver.
Qed.

Lemma dictionary_of_NoDup (d : list (string * json)) entries :
  NoDup (dict_keys d) -> NoDup (dict_keys (dictionary_of d entries)).
Proof.
  revert d. induction entries as [|[k v] entries IH]; intros d Hnd; simpl; [done|].
  by apply IH, dict_keys_set_NoDup.
Qed.

Lemma zip_names_fst (names : list string) (descriptors : list json) :
  length names = length descriptors -> (zip names descriptors).*1 = names.
Proof. intros Hlen. apply fst_zip. lia. Qed.

(** What a refresh does with a listing of well-formed descriptors. *)
Lemma refresh_named r self body descriptors names :
  raise_for_status_exc r = None ->
  json_result r = Returned (JObject body) ->
  body !! "models" = Some (JArray descriptors) ->
  Forall2 descriptor_named descriptors names ->
  refresh_installed_models (serve r) self =
  {| manager_after :=
       {| ollama_api := ollama_api self;
          installed_models :=
            dictionary_of [] (zip (before_colon <$> names) descriptors) |};
     manager_sent := [list_models_request (ollama_api self)];
     manager_returned := true |}.
Proof.
  intros Hstatus Hjson Hmodels Hnamed.
  unfold refresh_installed_models. cbv zeta.
  destruct (list_models_leaves_client (serve r) (ollama_api self)) as [-> ->].
  rewrite list_models_run. unfold serve. cbv zeta.
  rewrite Hstatus, Hjson. simpl. rewrite Hmodels. simpl.
  by rewrite (refresh_loop_named _ _ _ Hnamed).
Qed.

(** X9. With a listing whose descriptors are objects with a string [name],
    [refresh_installed_models] returns [True] and rebuilds the dictionary
    from the listing alone: its keys are exactly the names cut at their
    first colon, each once, so that models that are no longer listed
    disappear and the tags of one model collapse into one entry; and the
    entry of a key is the last descriptor listed with it. *)
Theorem refresh_registers_listing r self body descriptors names :
  raise_for_status_exc r = None ->
  json_result r = Returned (JObject body) ->
  body !! "models" = Some (JArray descriptors) ->
  Forall2 descriptor_named descriptors names ->
  let out := refresh_installed_models (serve r) self in
  let installed := installed_models (manager_after out) in
  manager_returned out = true ∧
  NoDup (dict_keys installed) ∧
  (∀ model_id, model_id ∈ dict_keys installed ↔ model_id ∈ before_colon <$> names) ∧
  (∀ i model name,
     descriptors !! i = Some model -> names !! i = Some name ->
     (∀ j name', (i < j)%nat -> names !! j = Some name' ->
                 before_colon name' ≠ before_colon name) ->
     dict_lookup installed (before_colon name) = Some model).
Proof.
  intros Hstatus Hjson Hmodels Hnamed out installed. subst installed out.
  rewrite (refresh_named _ _ _ _ _ Hstatus Hjson Hmodels Hnamed). simpl.
  assert (Hlen : length (before_colon <$> names) = length descriptors).
  { rewrite length_fmap. symmetry. by eapply Forall2_length. }
  split; [done|]. split; [|split].
  - apply dictionary_of_NoDup. constructor.
  - intros model_id. rewrite dictionary_of_keys, (zip_names_fst _ _ Hlen).
    unfold dict_keys. set_solver.
  - intros i model name Hmodel Hname Hlast.
    apply (dictionary_of_lookup_last _ _ i).
    + apply lookup_zip_with_Some. exists (before_colon name), model.
      split; [done|]. split; [|done]. by rewrite list_lookup_fmap, Hname.
    + intros j [k v] Hij [k' [v' (Heq & Hk & _)]]%lookup_zip_with_Some.
      injection Heq as -> ->. simpl.
      rewrite list_lookup_fmap in Hk.
      destruct (names !! j) as [name'|] eqn:Hj; [|done].
      injection Hk as <-. by apply (Hlast j).
Qed.

Lemma refresh_registers_listing_witness :
  let latest := JObject {[ "name" := JString "qwen3:latest"; "size" := JInt 1 ]} in
  let small := JObject {[ "name" := JString "qwen3:0.6b"; "size" := JInt 2 ]} in
  let phi := JObject {[ "name" := JString "phi3-mini" ]} in
  let r := {| raise_for_status_exc := None;
              json_result := Returned (JObject {[ "models" := JArray [latest; phi; small] ]});
              iter_lines := []; iter_lines_exc := None |} in
  let self := {| ollama_api := sample_self;
                 installed_models := [("mixtral", JNull)] |} in
  let out := refresh_installed_models (serve r) self in
  manager_returned out = true ∧
  dict_keys (installed_models (manager_after out)) = ["qwen3"; "phi3-mini"] ∧
  dict_lookup (installed_models (manager_after out)) "qwen3" = Some small.
Proof.
  intros latest small phi r self out.
  destruct (refresh_registers_listing r self
              {[ "models" := JArray [latest; phi; small] ]}
              [latest; phi; small] ["qwen3:latest"; "phi3-mini"; "qwen3:0.6b"])
    as (Hreturned & _ & _ & Hlast).
  - reflexivity.
  - reflexivity.
  - reflexivity.
  - repeat constructor; eexists; (split; [reflexivity|]); reflexivity.
  - split; [exact Hreturned|]. split; [vm_compute; reflexivity|].
    apply (Hlast 2%nat small "qwen3:0.6b"); [reflexivity | reflexivity |].
    intros j name' Hj Hname. destruct j as [|[|[|j]]]; try lia; discriminate.
Defined.

(** X10. A descriptor that is not an object with a string [name] (no [name]
    key, a [name] that is no string, or a descriptor that is no object)
    stops the refresh: it returns [False], the descriptors after it are
    not looked at, and the dictionary is left holding only the entries of
    the descriptors before it, the earlier content being lost. *)
Theorem refresh_stops_at_malformed_descriptor
    r self body good names bad e rest :
  raise_for_status_exc r = None ->
  json_result r = Returned (JObject body) ->
  body !! "models" = Some (JArray (good ++ bad :: rest)) ->
  Forall2 descriptor_named good names ->
  model_id_of bad = inl e ->
  let out := refresh_installed_models (serve r) self in
  manager_returned out = false ∧
  installed_models (manager_after out)
  = dictionary_of [] (zip (before_colon <$> names) good) ∧
  ∀ model_id,
    model_id ∈ dict_keys (installed_models (manager_after out))
    ↔ model_id ∈ before_colon <$> names.
Proof.
  intros Hstatus Hjson Hmodels Hgood Hbad out. subst out.
  unfold refresh_installed_models. cbv zeta.
  destruct (list_models_leaves_client (serve r) (ollama_api self)) as [-> ->].
  rewrite list_models_run. unfold serve. cbv zeta.
  rewrite Hstatus, Hjson. simpl. rewrite Hmodels. simpl.
  rewrite (refresh_loop_app _ _ _ _ Hgood). simpl. rewrite Hbad. simpl.
  split; [done|]. split; [done|].
  intros model_id. rewrite dictionary_of_keys, zip_names_fst.
  - unfold dict_keys. set_solver.
  - rewrite length_fmap. symmetry. by eapply Forall2_length.
Qed.

Lemma refresh_stops_at_malformed_descriptor_witness :
  let latest := JObject {[ "name" := JString "qwen3:latest" ]} in
  let nameless := JObject {[ "model" := JString "phi3-mini" ]} in
  let r := {| raise_for_status_exc := None;
              json_result := Returned (JObject {[ "models" := JArray [latest; nameless; latest] ]});
              iter_lines := []; iter_lines_exc := None |} in
  let self := {| ollama_api := sample_self;
                 installed_models := [("mixtral", JNull)] |} in
  let out := refresh_installed_models (serve r) self in
  manager_returned out = false ∧
  installed_models (manager_after out) = [("qwen3", latest)].
Proof.
  intros latest nameless r self out.
  destruct (refresh_stops_at_malformed_descriptor r self
              {[ "models" := JArray [latest; nameless; latest] ]}
              [latest] ["qwen3:latest"] nameless (KeyError "name") [latest])
    as (Hreturned & Hinstalled & _).
  - reflexivity.
  - reflexivity.
  - reflexivity.
  - repeat constructor; eexists; (split; [reflexivity|]); reflexivity.
  - reflexivity.
  - split; [exact Hreturned|]. etrans; [exact Hinstalled | reflexivity].
Defined.

(** X11. Whatever the transport does, a refresh keeps the client of the manager
    and keeps the dictionary well formed (no repeated key, no key with a
    colon), and the dictionary the constructor leaves is well formed.  So
    [get_installed_models] never lists a model twice, and
    [is_model_installed] answers [False] for every identifier that
    contains a colon, such as a name with its tag. *)
Theorem manager_dictionary_invariant t self :
  dictionary_ok (installed_models self) ->
  let out := refresh_installed_models t self in
  dictionary_ok (installed_models (manager_after out)) ∧
  ollama_api (manager_after out) = ollama_api self ∧
  NoDup (manager_returned (get_installed_models t self)) ∧
  (∀ model_id, has_colon model_id = true ->
     manager_returned (is_model_installed t self model_id) = false) ∧
  ∀ api, dictionary_ok (installed_models (manager_after (ModelManager_init t api))).
Proof.
  intros Hok out.
  assert (Hrefresh : ∀ self0, dictionary_ok (installed_models self0) ->
            dictionary_ok (installed_models (manager_after (refresh_installed_models t self0))) ∧
            ollama_api (manager_after (refresh_installed_models t self0)) = ollama_api self0).
  { intros self0 Hok0. unfold refresh_installed_models. cbv zeta.
    destruct (list_models_leaves_client t (ollama_api self0)) as [-> _].
    destruct (result (run t (ollama_api self0) list_models)) as [models|e]; [|done].
    destruct (py_iter models) as [items|e]; simpl.
    - pose proof (refresh_loop_ok items
        {| ollama_api := ollama_api self0; installed_models := [] |}) as Hloop.
      destruct (refresh_loop items _) as [self1 raised]. simpl in *.
      apply Hloop. split; [constructor | constructor].
    - split; [|done]. split; constructor. }
  destruct (Hrefresh self Hok) as [Hok' Hapi]. subst out.
  split; [done|]. split; [done|]. split; [apply Hok'|]. split.
  - intros model_id Hcolon. unfold is_model_installed. cbv zeta. simpl.
    unfold dict_contains. apply bool_decide_eq_false. intros Hin.
    destruct Hok' as [_ Hkeys]. rewrite Forall_forall in Hkeys.
    specialize (Hkeys _ Hin). congruence.
  - intros api. unfold ModelManager_init. cbv zeta. simpl.
    apply Hrefresh. split; constructor.
Qed.

Lemma manager_dictionary_invariant_witness :
  let listed := JObject {[ "name" := JString "deepseek-coder:v2" ]} in
  let r := {| raise_for_status_exc := None;
              json_result := Returned (JObject {[ "models" := JArray [listed] ]});
              iter_lines := []; iter_lines_exc := None |} in
  let self := {| ollama_api := sample_self; installed_models := [] |} in
  manager_returned (is_model_installed (serve r) self "deepseek-coder:v2") = false ∧
  manager_returned (get_installed_models (serve r) self) = ["deepseek-coder"].
Proof.
  intros listed r self.
  destruct (manager_dictionary_invariant (serve r) self) as (_ & _ & _ & Hcolon & _).
  - split; constructor.
  - split; [apply Hcolon; reflexivity | vm_compute; reflexivity].
Defined.

(** ** generate_response *)

Lemma run_for_yielded_yield {Y} t self (gen : prog Y unit) :
  run t self (for_yielded gen (fun _ token => yield token) tt) = run t self gen.
Proof.
  revert self.
  induction gen as [[]|e|y k IH|a k IH|a v k IH|req k IH]; intros self; simpl;
    try done.
  - by rewrite IH.
  - by rewrite IH.
Qed.

Lemma run_try_except_Exception_reraise {Y A} t self (p : prog Y A) :
  run t self (try_except_Exception p (fun e => Raise e)) = run t self p.
Proof.
  revert self.
  induction p as [a|e|y k IH|a k IH|a v k IH|req k IH]; intros self; simpl;
    try done.
  - by rewrite IH.
  - by rewrite IH.
Qed.

Lemma run_generate_response json_loads t self model_id prompt max_tokens :
  run t self (generate_response json_loads model_id prompt max_tokens)
  = run t self (generate_stream json_loads model_id prompt
      (Some (if py_truthy max_tokens then {[ "max_tokens" := max_tokens ]} else ∅))).
Proof.
  unfold generate_response. cbv zeta.
  rewrite run_try_except_Exception_reraise, run_for_yielded_yield.
  by destruct (py_truthy max_tokens).
Qed.

(** X12. [generate_response] is [generate_stream] seen through: it sends the
    same request, yields the same tokens and ends the same way, the
    exceptions included.  The options it passes hold [max_tokens] only when
    the argument counts as true, so for [None] and also for [0] the body
    carries the default of 2048; the body's keys are always [model],
    [prompt], [stream] and [max_tokens]. *)
Theorem generate_response_is_generate_stream
    json_loads t self model_id prompt max_tokens :
  let params : gmap string json :=
    if py_truthy max_tokens then {[ "max_tokens" := max_tokens ]} else ∅ in
  run t self (generate_response json_loads model_id prompt max_tokens)
  = run t self (generate_stream json_loads model_id prompt (Some params)) ∧
  ∃ body,
    omap req_json (sent (run t self
      (generate_response json_loads model_id prompt max_tokens))) = [body] ∧
    body !! "max_tokens"
    = Some (if py_truthy max_tokens then max_tokens else JInt 2048) ∧
    body !! "model" = Some (JString model_id) ∧
    body !! "prompt" = Some (JString prompt) ∧
    body !! "stream" = Some (JBool true) ∧
    dom body = {[ "model"; "prompt"; "stream"; "max_tokens" ]}.
Proof.
  intros params.
  assert (Hrun : run t self (generate_response json_loads model_id prompt max_tokens)
                 = run t self (generate_stream json_loads model_id prompt (Some params))).
  { apply run_generate_response. }
  split; [exact Hrun|]. rewrite Hrun.
  pose proof (bodies_perform json_loads
                (GenerateStream model_id prompt (Some params)) t self) as Hbodies.
  unfold bodies, perform, observe in Hbodies. simpl in Hbodies.
  eexists. split; [exact Hbodies|].
  rewrite !set_default_max_tokens_lookup, !add_params_lookup,
    dom_set_default_max_tokens, dom_add_params.
  subst params. unfold options. simpl.
  destruct (py_truthy max_tokens); simpl.
  - rewrite !dom_insert_L, dom_singleton_L.
    repeat split; try (by simplify_map_eq); set_solver.
  - rewrite !dom_insert_L, dom_singleton_L, dom_empty_L.
    repeat split; try (by simplify_map_eq); set_solver.
Qed.

(** ** get_model_info *)

Lemma get_model_info_in_ids models ids model_id :
  Forall2 (λ model id, ∃ m, model = JObject m ∧ m !! "id" = Some (JString id))
    models ids ->
  (model_id ∈ ids ->
   ∃ model, get_model_info_in models model_id = inr (Some model) ∧
            model ∈ models ∧ py_getitem model "id" = inr (JString model_id)) ∧
  (model_id ∉ ids -> get_model_info_in models model_id = inr None).
Proof.
  induction 1 as [|model id models ids (m & -> & Hid) _ [IHin IHout]]; simpl.
  - split; [by intros ?%elem_of_nil | done].
  - rewrite Hid. simpl. case_bool_decide as Heq.
    + subst id. split; [|set_solver]. intros _. exists (JObject m).
      split; [done|]. split; [by left|]. simpl. by rewrite Hid.
    + split.
      * intros [?|Hin]%elem_of_cons; [done|].
        destruct (IHin Hin) as (model & Hfound & Hmember & Hmodel).
        exists model. split; [done|]. split; [by right | done].
      * intros Hout. apply IHout. set_solver.
Qed.

(** X13. [get_model_info] never raises on the catalogue of supported models:
    for each of the nine identifiers of the catalogue it returns an entry
    of the catalogue whose [id] is the identifier asked for, and for every
    other identifier it returns [None]. *)
Theorem get_model_info_finds_catalogue_entry model_id :
  let ids := ["qwen3"; "llama3.1"; "codellama"; "starcoder2"; "phi3-mini";
              "deepseek-coder-v2"; "mistral-large"; "mixtral"; "openchat"] in
  (model_id ∈ ids ->
   ∃ model, get_model_info model_id = inr (Some model) ∧
            model ∈ SUPPORTED_MODELS ∧
            py_getitem model "id" = inr (JString model_id)) ∧
  (model_id ∉ ids -> get_model_info model_id = inr None).
Proof.
  intros ids. apply get_model_info_in_ids.
  unfold SUPPORTED_MODELS, supported_model, ids.
  repeat (constructor; [eexists; split; [reflexivity | reflexivity]|]).
  constructor.
Qed.

(** ** The response thread *)

(** The signals the thread emits follow the generator it reads. *)
Lemma thread_signals t self (gen : prog json unit) full_response :
  let out :=
    run t self (try_except_Exception
      (full_response ←
         for_yielded gen
           (fun full_response token =>
              full_response ← lift (py_str_add full_response token);
              emit (token_received token);;
              mret full_response)
           full_response;
       emit (response_received full_response))
      (fun e => emit (response_error (message_of_exn e)))) in
  produced out = signals_of full_response (produced (run t self gen))
                   (result (run t self gen)) ∧
  result out = Returned tt.
Proof.
  unfold mbind, prog_mbind, mret, prog_ret. cbv zeta.
  revert self full_response.
  induction gen as [[]|e|y k IH|a k IH|a v k IH|req k IH];
    intros self full_response; simpl.
  - done.
  - done.
  - destruct (py_str_add full_response y) as [full'|e] eqn:Hadd; simpl.
    + destruct (IH self full') as [IHproduced IHresult].
      split; [f_equal; exact IHproduced | exact IHresult].
    + done.
  - apply IH.
  - apply IH.
  - apply IH.
Qed.

Lemma signals_of_shape full_response tokens ending :
  ∃ emitted terminal,
    signals_of full_response tokens ending
    = (token_received <$> emitted) ++ [terminal] ∧
    is_terminal terminal = true.
Proof.
  revert full_response. induction tokens as [|token rest IH]; intros full; simpl.
  - destruct ending; by eexists [], _.
  - destruct (py_str_add full token) as [full'|e].
    + destruct (IH full') as (emitted & terminal & -> & Hterminal).
      by exists (token :: emitted), terminal.
    + by eexists [], _.
Qed.

Lemma string_app_nil_r (s : string) : s +:+ "" = s.
Proof.
  induction s as [|a s IH]; [done|].
  change (String a (s +:+ "") = String a s). by f_equal.
Qed.

Lemma string_app_assoc (s1 s2 s3 : string) :
  (s1 +:+ s2) +:+ s3 = s1 +:+ s2 +:+ s3.
Proof.
  induction s1 as [|a s1 IH]; [done|].
  change (String a ((s1 +:+ s2) +:+ s3) = String a (s1 +:+ s2 +:+ s3)).
  by f_equal.
Qed.

Lemma signals_of_strings full_response fragments :
  signals_of full_response (JString <$> fragments) (Returned tt)
  = (token_received <$> (JString <$> fragments))
    ++ [response_received (full_response +:+ concat_strings fragments)].
Proof.
  revert full_response.
  induction fragments as [|f rest IH]; intros full; simpl.
  - by rewrite string_app_nil_r.
  - by rewrite IH, string_app_assoc.
Qed.

(** X14. However the exchange goes, [ModelResponseThread.run] does not raise, and
    what it emits is a number of [token_received] signals followed by
    exactly one closing signal, [response_received] or [response_error],
    after which nothing is emitted. *)
Theorem thread_ends_with_one_closing_signal json_loads t self model_id prompt :
  let out := run t self (ModelResponseThread_run json_loads model_id prompt) in
  result out = Returned tt ∧
  ∃ emitted terminal,
    produced out = (token_received <$> emitted) ++ [terminal] ∧
    is_terminal terminal = true.
Proof.
  intros out. subst out. unfold ModelResponseThread_run.
  destruct (thread_signals t self
              (generate_response json_loads model_id prompt JNull) "")
    as [Hproduced Hresult].
  split; [exact Hresult|]. rewrite Hproduced. apply signals_of_shape.
Qed.

(** X15. On a stream of lines that are blank or carry a text fragment with
    [done] false, followed by a [done] object, the thread emits
    [token_received] for each fragment, in order, and then
    [response_received] with the fragments joined. *)
Theorem thread_emits_tokens_then_full_response
    json_loads self model_id prompt r pre objs fragments last m_done tail :
  raise_for_status_exc r = None ->
  iter_lines r = pre ++ last :: tail ->
  ndjson_objects json_loads pre objs ->
  Forall2 (λ m F, m !! "response" = Some (JString F) ∧
                  m !! "done" = Some (JBool false)) objs fragments ->
  last ≠ "" ->
  json_loads last = inl (JObject m_done) ->
  is_done m_done = true ->
  produced (run (serve r) self (ModelResponseThread_run json_loads model_id prompt))
  = (token_received <$> (JString <$> fragments))
    ++ [response_received (concat_strings fragments)].
Proof.
  intros Hstatus Hlines Hpre Hfragments Hne Hload Hdone.
  apply fragments_tokens in Hfragments as [Hnd Htokens].
  unfold ModelResponseThread_run.
  destruct (thread_signals (serve r) self
              (generate_response json_loads model_id prompt JNull) "")
    as [-> _].
  rewrite run_generate_response.
  assert (Hvalid : ndjson_objects json_loads (pre ++ [last]) (objs ++ [m_done])).
  { clear Hlines Hnd Htokens. induction Hpre; simpl.
    - apply ndjson_object; [done | done | apply ndjson_nil].
    - by apply ndjson_blank.
    - by apply ndjson_object. }
  assert (Hlines' : iter_lines r = (pre ++ [last]) ++ tail).
  { by rewrite <- app_assoc. }
  rewrite (generate_stream_run_valid _ _ _ _ _ _ _ _ _ Hstatus Hlines' Hvalid).
  - simpl. rewrite (before_done_first objs m_done [] Hnd Hdone), Htokens.
    assert (Hex : existsb is_done (objs ++ [m_done]) = true).
    { apply existsb_is_done, Exists_app. right. by left. }
    rewrite Hex. apply signals_of_strings.
  - right. apply Exists_app. right. by left.
Qed.

Lemma thread_emits_tokens_then_full_response_witness :
  let r := sample_response [line_Hel; ""; line_lo; line_done; line_garbage] in
  produced (run (serve r) sample_self
              (ModelResponseThread_run sample_json_loads "qwen3" "Hi"))
  = [token_received (JString "Hel"); token_received (JString "lo");
     response_received "Hello"].
Proof.
  intros r.
  apply (thread_emits_tokens_then_full_response sample_json_loads sample_self
           "qwen3" "Hi" r [line_Hel; ""; line_lo] [obj_Hel; obj_lo] ["Hel"; "lo"]
           line_done obj_done [line_garbage]).
  - reflexivity.
  - reflexivity.
  - apply ndjson_object; [discriminate | reflexivity |].
    apply ndjson_blank.
    apply ndjson_object; [discriminate | reflexivity |].
    apply ndjson_nil.
  - repeat constructor.
  - discriminate.
  - reflexivity.
  - reflexivity.
Defined.

(** X16. When the exchange fails, the thread emits a single signal,
    [response_error], whose text is the message of the client's exception:
    the prefix of [generate_stream] followed by the text of the transport
    error.  When a line of the stream is not valid JSON, the tokens of the
    lines before it have been emitted, and [response_error] carries the
    message of the exception that escapes [generate_stream]: for a decode
    error of [json.loads], its own message. *)
Theorem thread_reports_failure json_loads t self model_id prompt :
  (∀ e, fails_with (t (generate_stream_request self model_id prompt (Some ∅))) e ->
        produced (run t self (ModelResponseThread_run json_loads model_id prompt))
        = [response_error (generate_stream_error +:+ exc_text e)]) ∧
  (∀ r pre objs fragments bad e tail,
     t = serve r ->
     raise_for_status_exc r = None ->
     iter_lines r = pre ++ bad :: tail ->
     ndjson_objects json_loads pre objs ->
     Forall2 (λ m F, m !! "response" = Some (JString F) ∧
                     m !! "done" = Some (JBool false)) objs fragments ->
     bad ≠ "" -> json_loads bad = inr e ->
     produced (run t self (ModelResponseThread_run json_loads model_id prompt))
     = (token_received <$> (JString <$> fragments))
       ++ [response_error (message_of_exn (surfaced generate_stream_error e))]).
Proof.
  split.
  - intros e Hfail. unfold ModelResponseThread_run.
    destruct (thread_signals t self
                (generate_response json_loads model_id prompt JNull) "")
      as [-> _].
    rewrite run_generate_response, generate_stream_run. cbv zeta. simpl.
    destruct Hfail as [-> | (r & -> & ->)]; done.
  - intros r pre objs fragments bad e tail -> Hstatus Hlines Hpre Hfragments
      Hne Hload.
    apply fragments_tokens in Hfragments as [Hnd Htokens].
    unfold ModelResponseThread_run.
    destruct (thread_signals (serve r) self
                (generate_response json_loads model_id prompt JNull) "")
      as [-> _].
    rewrite run_generate_response, generate_stream_run. unfold serve. cbv zeta.
    rewrite Hstatus, run_try_except, Hlines.
    rewrite (generate_stream_loop_prefix _ _ _ _ _ _ _ Hpre Hnd). simpl.
    rewrite (generate_stream_body_malformed _ _ _ Hne Hload). simpl.
    rewrite Htokens. clear.
    destruct e; simpl; rewrite ?app_nil_r.
    all: generalize "" at 1.
    all: induction fragments as [|f rest IH]; intros full; simpl; [done|].
    all: by rewrite IH.
Qed.

Lemma thread_reports_failure_witness :
  let e := {| exc_class := Timeout; exc_text := "Read timed out. (read timeout=30)" |} in
  let r := sample_response [line_Hel; line_garbage; line_done] in
  produced (run (refuse e) sample_self
              (ModelResponseThread_run sample_json_loads "qwen3" "Hi"))
  = [response_error (generate_stream_error +:+ "Read timed out. (read timeout=30)")] ∧
  produced (run (serve r) sample_self
              (ModelResponseThread_run sample_json_loads "qwen3" "Hi"))
  = [token_received (JString "Hel");
     response_error "Expecting value: line 1 column 1 (char 0)"].
Proof.
  intros e r. split.
  - destruct (thread_reports_failure sample_json_loads (refuse e) sample_self
                "qwen3" "Hi") as [Hfail _].
    apply (Hfail e). left. reflexivity.
  - destruct (thread_reports_failure sample_json_loads (serve r) sample_self
                "qwen3" "Hi") as [_ Hline].
    apply (Hline r [line_Hel] [obj_Hel] ["Hel"] line_garbage
             (JSONDecodeError "Expecting value: line 1 column 1 (char 0)")
             [line_done]).
    + reflexivity.
    + reflexivity.
    + reflexivity.
    + apply ndjson_object; [discriminate | reflexivity |]. apply ndjson_nil.
    + repeat constructor.
    + discriminate.
    + reflexivity.
Defined.

(** ** Model metadata *)

Lemma to_dict_lookups (self : ModelMetadata) :
  to_dict self !! "model_id" = Some (JString (model_id self)) ∧
  to_dict self !! "name" = Some (name self) ∧
  to_dict self !! "description" = Some (description self) ∧
  to_dict self !! "source" = Some (source self) ∧
  to_dict self !! "category" = Some (category self) ∧
  to_dict self !! "requirements" = Some (requirements self) ∧
  to_dict self !! "install_command" = Some (install_command self) ∧
  to_dict self !! "tags" = Some (tags self) ∧
  to_dict self !! "parameters" = Some (parameters self) ∧
  to_dict self !! "version" = Some (version self) ∧
  to_dict self !! "installed_date" = Some (installed_date self) ∧
  to_dict self !! "last_used" = Some (last_used self).
Proof. repeat split; reflexivity. Qed.

Lemma update_from_to_dict (self other : ModelMetadata) :
  update_from_dict other (to_dict self) =
  {| model_id := model_id other;
     name := name self; description := description self; source := source self;
     category := category self; requirements := requirements self;
     install_command := install_command self; tags := tags self;
     parameters := parameters self; version := version self;
     installed_date := installed_date self; last_used := last_used self |}.
Proof.
  unfold update_from_dict.
  destruct (to_dict_lookups self)
    as (_ & -> & -> & -> & -> & -> & -> & -> & -> & -> & -> & ->).
  reflexivity.
Qed.

(** X17. A metadata object is rebuilt from its own dictionary: constructing one
    with the same identifier from [to_dict()] gives the object back, all
    eleven attributes included.  The [model_id] entry of the dictionary
    plays no part in this: filling any object from the dictionary copies the
    eleven attributes and keeps that object's own identifier. *)
Theorem metadata_round_trip (self other : ModelMetadata) :
  ModelMetadata_init (model_id self) (Some (to_dict self)) = self ∧
  to_dict (update_from_dict other (to_dict self))
  = <["model_id" := JString (model_id other)]> (to_dict self).
Proof.
  split.
  - unfold ModelMetadata_init. cbv zeta.
    assert (Htruthy : params_truthy (Some (to_dict self)) = true).
    { unfold params_truthy. apply negb_true_iff, bool_decide_eq_false.
      intros Hempty. destruct (to_dict_lookups self) as [Hid _].
      by rewrite Hempty, lookup_empty in Hid. }
    rewrite Htruthy. simpl. rewrite update_from_to_dict. by destruct self.
  - rewrite update_from_to_dict. unfold to_dict. simpl.
    by rewrite insert_insert_eq.
Qed.


(** ** Metadata files *)

(** X19. A save that cannot create the directory or open the file returns
    [False] and leaves the files alone.  Once the file is opened, its
    former text is gone: the file holds what [json.dump] wrote, also when
    [json.dump] raises and the save returns [False].  After a save that
    returns [True], loading the same identifier gives the saved object
    back, provided [json.load] reads back what [json.dump] wrote. *)
Theorem save_then_load HOME_DIR json_dumps json_loads (self : ModelMetadata) fs :
  let saved := save HOME_DIR json_dumps self fs in
  let path := metadata_path HOME_DIR (model_id self) in
  let written := json_dumps (to_dict self) in
  (MODELS_DIR HOME_DIR ∈ denied fs ∨ path ∈ denied fs -> saved = (fs, false)) ∧
  (MODELS_DIR HOME_DIR ∉ denied fs -> path ∉ denied fs ->
   saved.2 = written.2 ∧ files saved.1 !! path = Some written.1) ∧
  (saved.2 = true ->
   json_loads written.1 = inl (JObject (to_dict self)) ->
   load HOME_DIR json_loads (model_id self) saved.1 = Some self).
Proof.
  intros saved path written. subst saved path written. unfold save. cbv zeta.
  destruct (bool_decide (MODELS_DIR HOME_DIR ∈ denied fs)) eqn:Hdir.
  { apply bool_decide_eq_true in Hdir. repeat split; done. }
  apply bool_decide_eq_false in Hdir.
  destruct (bool_decide (metadata_path HOME_DIR (model_id self) ∈ denied fs))
    eqn:Hfile.
  { apply bool_decide_eq_true in Hfile. repeat split; done. }
  apply bool_decide_eq_false in Hfile.
  simpl. split; [by intros [?|?]|]. split.
  - intros _ _. split; [done|]. apply lookup_insert_eq.
  - intros _ Hloads. unfold load. cbv zeta. simpl.
    rewrite lookup_insert_eq, Hloads.
    unfold ModelMetadata_init. simpl.
    rewrite update_from_to_dict. by destruct self.
Qed.

Lemma save_then_load_witness :
  let self := ModelMetadata_init "qwen3" None in
  let dumps (d : gmap string json) : string * bool := ("{...}", true) in
  let loads (text : bytes) : json + exn := inl (JObject (to_dict self)) in
  let fs := {| files := {[ metadata_path "/home/user" "qwen3" := "old" ]};
               denied := ∅ |} in
  (save "/home/user" dumps self fs).2 = true ∧
  files (save "/home/user" dumps self fs).1 !! metadata_path "/home/user" "qwen3"
  = Some "{...}" ∧
  load "/home/user" loads "qwen3" (save "/home/user" dumps self fs).1 = Some self.
Proof.
  intros self dumps loads fs.
  destruct (save_then_load "/home/user" dumps loads self fs)
    as (_ & Hwritten & Hsame).
  destruct Hwritten as [Hreturned Hfile]; [apply not_elem_of_empty..|].
  split; [exact Hreturned|]. split; [exact Hfile|].
  apply Hsame; [exact Hreturned | reflexivity].
Defined.

(** ** The list of models *)

Lemma dict_keys_del {V} (d : list (string * V)) key key' :
  key' ∈ dict_keys (dict_del d key) -> key' ∈ dict_keys d.
Proof.
  unfold dict_keys. induction d as [|[k x] d IH]; simpl; [done|].
  case_bool_decide; simpl; set_solver.
Qed.

Lemma dict_lookup_del {V} (d : list (string * V)) key key' :
  NoDup (dict_keys d) ->
  dict_lookup (dict_del d key) key' =
  if bool_decide (key = key') then None else dict_lookup d key'.
Proof.
  unfold dict_keys. induction d as [|[k x] d IH]; simpl; intros Hnd.
  - by case_bool_decide.
  - apply NoDup_cons in Hnd as [Hk Hnd].
    destruct (bool_decide (k = key)) eqn:Hkey; simpl.
    + apply bool_decide_eq_true in Hkey as ->.
      destruct (bool_decide (key = key')) eqn:Hkey'; [|done].
      apply bool_decide_eq_true in Hkey' as <-.
      destruct (dict_lookup d key) eqn:Hlookup; [|done].
      assert (Hc : dict_contains d key = true).
      { apply dict_contains_lookup. by rewrite Hlookup. }
      unfold dict_contains, dict_keys in Hc.
      by apply bool_decide_eq_true in Hc.
    + apply bool_decide_eq_false in Hkey. rewrite (IH Hnd).
      repeat case_bool_decide; congruence.
Qed.

(** X20. [add_model] makes the metadata the entry of its identifier, whether or
    not the file could be written, and leaves the entries of the other
    identifiers alone; the files afterwards are those [save] leaves. *)
Theorem add_model_then_get HOME_DIR json_dumps models (metadata : ModelMetadata) fs :
  let added := add_model HOME_DIR json_dumps models metadata fs in
  get_model added.1 (model_id metadata) = Some metadata ∧
  (∀ other, other ≠ model_id metadata ->
            get_model added.1 other = get_model models other) ∧
  added.2 = (save HOME_DIR json_dumps metadata fs).1 ∧
  (NoDup (dict_keys models) -> NoDup (dict_keys added.1)).
Proof.
  intros added. subst added. unfold add_model, get_model. simpl.
  split; [|split; [|split]].
  - rewrite dict_lookup_set. by rewrite bool_decide_true.
  - intros other Hother. rewrite dict_lookup_set. by rewrite bool_decide_false.
  - done.
  - apply dict_keys_set_NoDup.
Qed.

(** X21. [remove_model] on an identifier that is not in the list returns [False]
    and changes nothing.  On one that is in the list it removes the entry
    and keeps the others; it also removes the metadata file if there is
    one, and returns [True], unless removing the file raises, in which case
    the entry is gone all the same and the file stays. *)
Theorem remove_model_removes HOME_DIR models id fs :
  NoDup (dict_keys models) ->
  let removed := remove_model HOME_DIR models id fs in
  let path := metadata_path HOME_DIR id in
  (dict_contains models id = false -> removed = (models, fs, Some false)) ∧
  (dict_contains models id = true ->
   get_model removed.1.1 id = None ∧
   (∀ other, other ≠ id -> get_model removed.1.1 other = get_model models other) ∧
   (path ∉ denied fs ->
    removed.2 = Some true ∧ files removed.1.2 !! path = None ∧
    ∀ other_path, other_path ≠ path ->
                  files removed.1.2 !! other_path = files fs !! other_path) ∧
   (path ∈ denied fs -> is_Some (files fs !! path) ->
    removed.2 = None ∧ removed.1.2 = fs)).
Proof.
  intros Hnd removed path. subst removed path. unfold remove_model, get_model.
  destruct (dict_contains models id) eqn:Hin; cbv zeta.
  - split; [done|]. intros _.
    assert (Hgone : dict_lookup (dict_del models id) id = None).
    { rewrite (dict_lookup_del _ _ _ Hnd). by rewrite bool_decide_true. }
    assert (Hkept : ∀ other, other ≠ id ->
              dict_lookup (dict_del models id) other = dict_lookup models other).
    { intros other Hother. rewrite (dict_lookup_del _ _ _ Hnd).
      by rewrite bool_decide_false. }
    destruct (bool_decide (is_Some (files fs !! metadata_path HOME_DIR id)))
      eqn:Hexists;
      [destruct (bool_decide (metadata_path HOME_DIR id ∈ denied fs)) eqn:Hdenied|];
      simpl; (split; [done|]); (split; [done|]); split.
    + intros Hallowed. by apply bool_decide_eq_true in Hdenied.
    + done.
    + intros _. split; [done|]. split; [apply lookup_delete_eq|].
      intros other_path Hother. by apply lookup_delete_ne.
    + intros Hraises. by apply bool_decide_eq_false in Hdenied.
    + intros _. split; [done|]. split; [|done].
      apply bool_decide_eq_false in Hexists. by apply eq_None_not_Some.
    + intros _ Hfile. by apply bool_decide_eq_false in Hexists.
  - split; [done|]. done.
Qed.

Lemma remove_model_removes_witness :
  let qwen := ModelMetadata_init "qwen3" None in
  let phi := ModelMetadata_init "phi3" None in
  let models := [("qwen3", qwen); ("phi3", phi)] in
  let fs := {| files := {[ metadata_path "/home/user" "qwen3" := "{}" ]};
               denied := ∅ |} in
  let removed := remove_model "/home/user" models "qwen3" fs in
  get_model removed.1.1 "qwen3" = None ∧
  get_model removed.1.1 "phi3" = Some phi ∧
  removed.2 = Some true ∧
  files removed.1.2 !! metadata_path "/home/user" "qwen3" = None.
Proof.
  intros qwen phi models fs removed.
  destruct (remove_model_removes "/home/user" models "qwen3" fs) as [_ Hpresent].
  - apply NoDup_cons. split; [|apply NoDup_singleton].
    intros Hin%list_elem_of_singleton. discriminate Hin.
  - destruct (Hpresent eq_refl) as (Hgone & Hkept & Hfile & _).
    destruct Hfile as (Hreturned & Hremoved & _).
    + apply not_elem_of_empty.
    + split; [exact Hgone|]. split; [|split; [exact Hreturned | exact Hremoved]].
      etrans; [apply Hkept; discriminate | reflexivity].
Defined.

(** ** The connection check *)

Lemma wait_for_service_first host pre attempt post :
  Forall (λ a, probe host a ≠ Some 200) pre ->
  probe host attempt = Some 200 ->
  wait_for_service host (pre ++ attempt :: post)
  = (true, S (length pre), 2 * Z.of_nat (length pre)).
Proof.
  intros Hpre Hattempt. induction Hpre as [|a pre Ha _ IH]; simpl.
  - by rewrite bool_decide_true.
  - rewrite bool_decide_false by done. rewrite IH. do 2 f_equal. lia.
Qed.

Lemma wait_for_service_none host attempts :
  Forall (λ a, probe host a ≠ Some 200) attempts ->
  wait_for_service host attempts
  = (false, length attempts, 2 * Z.of_nat (length attempts)).
Proof.
  induction 1 as [|a attempts Ha _ IH]; simpl; [done|].
  rewrite bool_decide_false by done. rewrite IH. do 2 f_equal. lia.
Qed.

Lemma wait_for_service_bounds host attempts :
  let '(ok, n, seconds) := wait_for_service host attempts in
  (n <= length attempts)%nat ∧ 0 <= seconds <= 2 * Z.of_nat n.
Proof.
  induction attempts as [|a attempts IH]; simpl; [lia|].
  case_bool_decide; [simpl; lia|].
  destruct (wait_for_service host attempts) as [[ok n] seconds]. simpl. lia.
Qed.

(** X22. [check_ollama_connection] makes at most five HTTP requests and sleeps at
    most ten seconds, and it makes requests only after it has started a
    service process itself: when the output of [ps -ef] contains the text
    [ollama serve] it returns [True] without contacting the server at all.
    When it has started the process, it returns [True] at the first
    attempt that is answered with status 200, having slept two seconds
    after each earlier attempt; when none of the five attempts is answered
    with status 200 it returns [False] after five requests and ten seconds
    of sleep. *)
Theorem check_ollama_connection_bounded host :
  let out := check_ollama_connection host in
  (probes out <= 5)%nat ∧
  0 <= slept out <= 10 ∧
  ((0 < probes out)%nat -> spawned out = true) ∧
  (∀ stdout, ps_stdout host = Some stdout -> py_in "ollama serve" stdout = true ->
     out = {| connected := true; spawned := false; probes := 0; slept := 0 |}) ∧
  (∀ stdout, ps_stdout host = Some stdout -> py_in "ollama serve" stdout = false ->
     popen_raises host = false ->
     (∀ i, (i < 5)%nat -> probe host i = Some 200 ->
           (∀ j, (j < i)%nat -> probe host j ≠ Some 200) ->
           out = {| connected := true; spawned := true;
                    probes := S i; slept := 2 * Z.of_nat i |}) ∧
     ((∀ i, (i < 5)%nat -> probe host i ≠ Some 200) ->
      out = {| connected := false; spawned := true; probes := 5; slept := 10 |})).
Proof.
  intros out. subst out. unfold check_ollama_connection. cbv zeta.
  pose proof (wait_for_service_bounds host (seq 0 5)) as Hbounds.
  remember (wait_for_service host (seq 0 5)) as waited eqn:Hwaited.
  destruct (ps_stdout host) as [stdout|] eqn:Hps;
    [|simpl; repeat split; intros; simplify_eq; lia].
  destruct (py_in "ollama serve" stdout) eqn:Hrunning; simpl.
  { repeat split; intros; simplify_eq; try lia; congruence. }
  destruct (popen_raises host) eqn:Hpopen; simpl.
  { repeat split; intros; simplify_eq; try lia; congruence. }
  split; [|split; [|split; [|split]]].
  - destruct waited as [[ok n] seconds]. simpl in *. lia.
  - destruct waited as [[ok n] seconds]. simpl in *. lia.
  - by destruct waited as [[ok n] seconds].
  - intros; simplify_eq; congruence.
  - intros ? _ _ _. subst waited. clear Hbounds. split.
    + intros i Hi Hprobe Hfirst.
      assert (Hseq : seq 0 5 = seq 0 i ++ i :: seq (S i) (4 - i)).
      { replace 5%nat with (i + S (4 - i))%nat at 1 by lia.
        by rewrite seq_app. }
      rewrite Hseq, (wait_for_service_first host (seq 0 i) i _).
      * by rewrite length_seq.
      * apply Forall_forall. intros j Hj%elem_of_seq. apply Hfirst. lia.
      * done.
    + intros Hnone. rewrite wait_for_service_none; [done|].
      apply Forall_forall. intros j Hj%elem_of_seq. apply Hnone. lia.
Qed.

Lemma check_ollama_connection_bounded_witness :
  let host := {| ps_stdout := Some "root 1 0 /sbin/init";
                 popen_raises := false;
                 probe := λ attempt, if bool_decide (attempt = 2%nat) then Some 200
                                     else None |} in
  check_ollama_connection host
  = {| connected := true; spawned := true; probes := 3; slept := 4 |}.
Proof.
  intros host.
  destruct (check_ollama_connection_bounded host) as (_ & _ & _ & _ & Hstarted).
  destruct (Hstarted "root 1 0 /sbin/init" eq_refl eq_refl eq_refl) as [Hfirst _].
  apply (Hfirst 2%nat); [lia | reflexivity |].
  intros j Hj. destruct j as [|[|j]]; [discriminate | discriminate | lia].
Defined.
